(** * bokeh-phy: the data-ingestion and reconciliation pipeline

    A shallow embedding of [scripts/bokeh-phy.py]: the input validator, the
    tree and metadata loaders, the schema reconciler, the colour resolver,
    the plot assembler, the output writer and the top-level handler of
    [main].

    Python values are modelled as follows.
    - A [str] that is only passed on, joined or printed (a path, a
      column name, a message) is a [string], the bytes of its text. The
      text that [f.read()] decodes from a file is a list of code points,
      and it is trimmed by CPython's table of white space.
    - What depends on the interpreter and the locale is taken from the
      environment: [repr] of a [str], the decoding of a file opened in
      text mode, and the command line as argparse reads it.
    - An exception is a class of the built-in hierarchy, its [str()] text
      and its [__context__].
    - Code that prints, reads files or raises is a function from the
      process state to an outcome and a new state.
    - Objects with identity (the pandas table) live in a store and are
      handled through references.
    - The external collaborators (baltic, pandas, json, plotly, bokeh,
      pathlib) are the fields of an environment record. *)

From stdpp Require Import gmap strings list pretty.
From Stdlib Require Import Ascii ZArith Lia.

Local Open Scope Z_scope.
Local Open Scope stdpp_scope.
Local Set Warnings "-register-all".
#[local] Arguments String.append !_ _ / : simpl nomatch.

(** ** Text *)

Module Text.

Definition dquote : ascii := "034"%char.
Definition squote : ascii := "039"%char.

(** [str.isspace] of one code point, by [_PyUnicode_IsWhitespace]:
    U+0009 to U+000D, U+001C to U+0020, U+0085, U+00A0, U+1680, U+2000
    to U+200A, U+2028, U+2029, U+202F, U+205F and U+3000. *)
Definition isspace (c : N) : bool :=
  ((9 <=? c) && (c <=? 13) || (28 <=? c) && (c <=? 32)
   || (c =? 133) || (c =? 160) || (c =? 5760)
   || (8192 <=? c) && (c <=? 8202)
   || (c =? 8232) || (c =? 8233) || (c =? 8239) || (c =? 8287) || (c =? 12288))%N.

Fixpoint lstrip (t : list N) : list N :=
  match t with
  | [] => []
  | c :: t' => if isspace c then lstrip t' else t
  end.

Fixpoint rstrip (t : list N) : list N :=
  match t with
  | [] => []
  | c :: t' =>
      match rstrip t' with
      | [] => if isspace c then [] else [c]
      | r => c :: r
      end
  end.

(** [t.strip()] *)
Definition strip (t : list N) : list N := rstrip (lstrip t).

Fixpoint has_char (c : ascii) (s : string) : bool :=
  match s with
  | EmptyString => false
  | String d s' => Ascii.eqb c d || has_char c s'
  end.

Fixpoint join (sep : string) (l : list string) : string :=
  match l with
  | [] => EmptyString
  | [x] => x
  | x :: l' => x +:+ sep +:+ join sep l'
  end.

(** [needle in hay] *)
Definition contains (needle hay : string) : Prop :=
  ∃ pre post, hay = pre +:+ needle +:+ post.

Fixpoint prefixb (p s : string) : bool :=
  match p, s with
  | EmptyString, _ => true
  | String a p', String b s' => Ascii.eqb a b && prefixb p' s'
  | String _ _, EmptyString => false
  end.

Fixpoint containsb (needle hay : string) : bool :=
  prefixb needle hay ||
  match hay with
  | EmptyString => false
  | String _ hay' => containsb needle hay'
  end.

End Text.

(** ** Exceptions *)

(** The classes of the built-in hierarchy that this program and its
    collaborators raise or catch. *)
Inductive exc_class : Set :=
| BaseException | Exception | KeyboardInterrupt | SystemExit
| OSError | FileNotFoundError | FileExistsError | IsADirectoryError
| NotADirectoryError | PermissionError
| ValueError | JSONDecodeError | UnicodeDecodeError
| TypeError | RuntimeError | ImportError
| LookupError | IndexError | KeyError.

#[global] Instance exc_class_eq_dec : EqDecision exc_class.
Proof. solve_decision. Defined.

(** The direct base class. *)
Definition exc_base (c : exc_class) : option exc_class :=
  match c with
  | BaseException => None
  | Exception | KeyboardInterrupt | SystemExit => Some BaseException
  | OSError | ValueError | TypeError | RuntimeError | ImportError | LookupError => Some Exception
  | FileNotFoundError | FileExistsError | IsADirectoryError
  | NotADirectoryError | PermissionError => Some OSError
  | JSONDecodeError | UnicodeDecodeError => Some ValueError
  | IndexError | KeyError => Some LookupError
  end.

Fixpoint issubclass_upto (depth : nat) (c d : exc_class) : bool :=
  bool_decide (c = d) ||
  match depth, exc_base c with
  | S depth', Some b => issubclass_upto depth' b d
  | _, _ => false
  end.

(** [issubclass(c, d)]; no class is more than three steps below
    [BaseException]. *)
Definition issubclass (c d : exc_class) : bool := issubclass_upto 3 c d.

(** An exception object: its class, [str(e)] and [e.__context__]. *)
Inductive exn : Type :=
| Exn (cls : exc_class) (text : string) (context : option exn).

Definition exn_class (e : exn) : exc_class := let 'Exn c _ _ := e in c.
Definition str (e : exn) : string := let 'Exn _ t _ := e in t.
Definition exn_context (e : exn) : option exn := let 'Exn _ _ x := e in x.

Definition isinstance (e : exn) (c : exc_class) : bool := issubclass (exn_class e) c.

(** Raising while [handled] is being handled records it as the context
    of a new exception. *)
Definition with_context (handled : exn) (e : exn) : exn :=
  match e with
  | Exn c t None => Exn c t (Some handled)
  | Exn _ _ (Some _) => e
  end.

(** ** Values and the process state *)

(** An entry of the file system; the content of a file is its bytes. *)
Inductive node : Type :=
| Dir
| File (readable : bool) (content : string).

(** An open text file: its name and the bytes behind it. *)
Record TextIO := { name : string; data : string }.

(** What [f.read()] comes to on a file opened in text mode: the text
    decoded from the bytes, a [UnicodeDecodeError] or an [OSError]. *)
Inductive reading : Type :=
| Decoded (content : list N)
| Undecodable (message : string)
| Unreadable (message : string).

(** What the JSON decoder builds, and the colour mappings. *)
Inductive pyobj : Type :=
| PNone
| PBool (b : bool)
| PInt (z : Z)
| PFloat (literal : string)
| PStr (s : string)
| PList (items : list pyobj)
| PDict (items : list (string * pyobj)).

(** A float of the command line, passed on unread. *)
Inductive pyfloat : Set := Float (literal : string).

(** What a local name of [save_plot] can be bound to. *)
Inductive pyval : Type :=
| VStr (s : string)
| VFunc (qualname : string).

(** The pandas table: the header and the rows. *)
Record DataFrame := { columns : list string; rows : list (list string) }.

(** The baltic tree; only its leaves are read. *)
Record Tree := { getExternal : list string }.

(** The bokeh figure, an opaque document. *)
Record Plot := { document : string }.

Record state := {
  fs : gmap string node;          (* path |-> entry *)
  stdout : list string;           (* one item per [print] *)
  frames : list DataFrame;        (* the tables, by reference *)
  curstate_file : option pyval;   (* bokeh's [curstate().file] *)
}.

Inductive outcome (A : Type) : Type :=
| Returned (a : A)
| Raised (e : exn).
Arguments Returned {A} a.
Arguments Raised {A} e.

(** A piece of Python code. *)
Definition M (A : Type) : Type := state → outcome A * state.

Definition ret {A} (a : A) : M A := λ s, (Returned a, s).

Definition bind {A B} (m : M A) (k : A → M B) : M B :=
  λ s, match m s with
       | (Returned a, s') => k a s'
       | (Raised e, s') => (Raised e, s')
       end.

Declare Scope py_scope.
Delimit Scope py_scope with py.
Notation "x <- m ;; k" := (bind m (λ x, k))
  (at level 100, m at next level, right associativity) : py_scope.
Notation "m ;; k" := (bind m (λ _, k))
  (at level 100, right associativity) : py_scope.
Local Open Scope py_scope.

(** [raise cls(text)] *)
Definition raise {A} (cls : exc_class) (text : string) : M A :=
  λ s, (Raised (Exn cls text None), s).

(** The state after more lines have been printed. *)
Definition printed (lines : list string) (s : state) : state :=
  {| fs := fs s; stdout := stdout s ++ lines; frames := frames s;
     curstate_file := curstate_file s |}.

(** The state after more tables have entered the store. *)
Definition with_frames (more : list DataFrame) (s : state) : state :=
  {| fs := fs s; stdout := stdout s; frames := frames s ++ more;
     curstate_file := curstate_file s |}.

(** [print(line)] *)
Definition print (line : string) : M unit :=
  λ s, (Returned tt, printed [line] s).

(** [try: body / except <classes>: handler]; the test [catches] is
    [isinstance], or constantly true for a bare [except:]. *)
Definition try_except {A} (body : M A) (catches : exn → bool) (handler : exn → M A) : M A :=
  λ s, match body s with
       | (Returned a, s') => (Returned a, s')
       | (Raised e, s') =>
           if catches e then
             match handler e s' with
             | (Returned a, s'') => (Returned a, s'')
             | (Raised e', s'') => (Raised (with_context e e'), s'')
             end
           else (Raised e, s')
       end.

(** [os.path.exists(path)] *)
Definition os_path_exists (path : string) : M bool :=
  λ s, (Returned (bool_decide (is_Some (fs s !! path))), s).

(** A new table enters the store; its reference is returned. *)
Definition new_frame (df : DataFrame) : M nat :=
  λ s, (Returned (length (frames s)), with_frames [df] s).

(** [metadata.columns] and [len(metadata)] of the table behind a
    reference. *)
Definition frame_columns (r : nat) : M (list string) :=
  λ s, (Returned (default [] (columns <$> frames s !! r)), s).

Definition frame_len (r : nat) : M nat :=
  λ s, (Returned (default 0%nat (length ∘ rows <$> frames s !! r)), s).

(** The keyword arguments of [bt_bokeh.plotTree]. *)
Record PlotKwargs := {
  kw_tree : Tree;
  kw_type : string;
  kw_df_metadata : nat;
  kw_color_column : string;
  kw_color_discrete_map : pyobj;
  kw_size : Z;
  kw_plot_width : Z;
  kw_plot_height : Z;
  kw_output_backend : string;
  kw_marker : string;
  kw_marker_line_color : string;
  kw_marker_line_width : Z;
  kw_hover_data : list string;
  kw_max_branch_length : pyfloat;
  kw_min_branch_length : pyfloat;
}.

(** The parsed command line. *)
Record Args := {
  args_tree : string;
  args_metadata : string;
  args_output : string;
  args_color_column : string;
  args_hover_columns : list string;
  args_width : Z;
  args_height : Z;
  args_tree_type : string;
  args_marker : string;
  args_marker_size : Z;
  args_max_branch_length : pyfloat;
  args_min_branch_length : pyfloat;
  args_backend : string;
  args_custom_colors : option string;
  args_show_plot : bool;
}.

(** [args.hover_columns = hover_columns] *)
Definition set_hover_columns (args : Args) (hover_columns : list string) : Args :=
  {| args_tree := args_tree args;
     args_metadata := args_metadata args;
     args_output := args_output args;
     args_color_column := args_color_column args;
     args_hover_columns := hover_columns;
     args_width := args_width args;
     args_height := args_height args;
     args_tree_type := args_tree_type args;
     args_marker := args_marker args;
     args_marker_size := args_marker_size args;
     args_max_branch_length := args_max_branch_length args;
     args_min_branch_length := args_min_branch_length args;
     args_backend := args_backend args;
     args_custom_colors := args_custom_colors args;
     args_show_plot := args_show_plot args |}.

(** Truth value of an optional [str]. *)
Definition truthy (o : option string) : bool :=
  match o with
  | Some (String _ _) => true
  | _ => false
  end.

(** How [parser.parse_args()] ends: with the namespace, or in
    [sys.exit(status)] after argparse has written its help or its usage
    message. *)
Inductive parsed : Type :=
| Parsed (args : Args)
| Exited (status : Z).

(** The interpreter and the external collaborators. [parser_parse_args]
    is argparse, with the parser of [parse_arguments], on the command line
    of the process. [f_read] decodes, under the encoding of the locale,
    the bytes of a file opened in text mode. [repr] is the built-in on a
    [str]; which characters it escapes is the interpreter's Unicode
    table. The readers are functions of the file system; the plotting and
    writing calls may change the state. *)
Record Env := {
  parser_parse_args : state → parsed * state;
  f_read : TextIO → reading;
  repr : string → string;
  bt_loadNewick : gmap string node → string → outcome Tree;
  pd_read_csv : gmap string node → string → string → outcome DataFrame;
  json_load : TextIO → outcome pyobj;
  px_colors_qualitative_Vivid : list string;
  bt_bokeh_plotTree : PlotKwargs → M Plot;
  Path_mkdir_parents_exist_ok : string → M unit;
  bokeh_save : Plot → M unit;
  bokeh_show : Plot → M unit;
  Path_parent : string → string;
  os_path_abspath : string → string;
  function_address : string → string;
}.

(** The prefixes of a path that end before a "/": the directories that
    the path goes through. *)
Fixpoint parents_from (seen rest : string) : list string :=
  match rest with
  | EmptyString => []
  | String c rest' =>
      (if Ascii.eqb c "/" && negb (bool_decide (seen = EmptyString)) then [seen] else [])
      ++ parents_from (seen +:+ String c EmptyString) rest'
  end.

Definition parents (path : string) : list string := parents_from EmptyString path.

(** One of them is a regular file. *)
Definition through_file (fsys : gmap string node) (path : string) : bool :=
  existsb (λ parent, match fsys !! parent with
                     | Some (File _ _) => true
                     | _ => false
                     end) (parents path).

(** [open(path, 'r')]: the entry must be a file that may be read. The
    text of an [OSError] ends with the [repr] of the file name. *)
Definition open (E : Env) (path : string) : M TextIO :=
  λ s, match fs s !! path with
       | None =>
           if through_file (fs s) path then
             (Raised (Exn NotADirectoryError
                        ("[Errno 20] Not a directory: " +:+ repr E path) None), s)
           else
             (Raised (Exn FileNotFoundError
                        ("[Errno 2] No such file or directory: " +:+ repr E path) None), s)
       | Some Dir =>
           (Raised (Exn IsADirectoryError
                      ("[Errno 21] Is a directory: " +:+ repr E path) None), s)
       | Some (File false _) =>
           (Raised (Exn PermissionError
                      ("[Errno 13] Permission denied: " +:+ repr E path) None), s)
       | Some (File true content) => (Returned {| name := path; data := content |}, s)
       end.

(** [f.read()] *)
Definition read (E : Env) (f : TextIO) : M (list N) :=
  match f_read E f with
  | Decoded content => ret content
  | Undecodable message => raise UnicodeDecodeError message
  | Unreadable message => raise OSError message
  end.

(** [repr(l)], also what an f-string writes, for a list of [str]. *)
Definition repr_list (E : Env) (l : list string) : string :=
  "[" +:+ Text.join ", " (repr E <$> l) +:+ "]".

(** The result of a call to a reader. *)
Definition call {A} (r : outcome A) : M A := λ s, (r, s).

(** [l[i]] on a list *)
Definition getitem (l : list string) (i : nat) : M string :=
  match l !! i with
  | Some x => ret x
  | None => raise IndexError "list index out of range"
  end.

(** [d[k] = v]: an existing key keeps its place, a new one goes last. *)
Fixpoint dict_setitem (k : string) (v : pyobj) (d : list (string * pyobj)) : list (string * pyobj) :=
  match d with
  | [] => [(k, v)]
  | (k', v') :: d' =>
      if decide (k = k') then (k, v) :: d' else (k', v') :: dict_setitem k v d'
  end.

(** A dict display [{k1: v1, ...}] *)
Definition dict_display (items : list (string * pyobj)) : pyobj :=
  PDict (foldl (λ d kv, dict_setitem kv.1 kv.2 d) [] items).

(** [d.get(k)] on a mapping, [None] on anything else. *)
Fixpoint assoc (k : string) (d : list (string * pyobj)) : option pyobj :=
  match d with
  | [] => None
  | (k', v) :: d' => if decide (k = k') then Some v else assoc k d'
  end.

Definition dict_get (o : pyobj) (k : string) : option pyobj :=
  match o with
  | PDict d => assoc k d
  | _ => None
  end.

Definition dict_keys (o : pyobj) : list string :=
  match o with
  | PDict d => d.*1
  | _ => []
  end.

(** [from module import name] gives the local name the function of the
    module. *)
Definition import_from (module name : string) : pyval := VFunc name.

(** The text an f-string writes for a local value. *)
Definition format (E : Env) (v : pyval) : string :=
  match v with
  | VStr s => s
  | VFunc q => "<function " +:+ q +:+ " at " +:+ function_address E q +:+ ">"
  end.

(** [Path(v)]: only a [str] (or a path) is accepted. *)
Definition Path (v : pyval) : M string :=
  match v with
  | VStr s => ret s
  | VFunc _ => raise TypeError "expected str, bytes or os.PathLike object, not function"
  end.

(** [os.path.abspath(v)] *)
Definition abspath (E : Env) (v : pyval) : M string :=
  match v with
  | VStr s => ret (os_path_abspath E s)
  | VFunc _ => raise TypeError "expected str, bytes or os.PathLike object, not function"
  end.

(** [callee(arg)] for a local value; the one function value there is, is
    [bokeh.plotting.output_file], which records the file name. *)
Definition call_value (callee arg : pyval) : M unit :=
  match callee with
  | VStr _ => raise TypeError "'str' object is not callable"
  | VFunc _ =>
      λ s, (Returned tt,
            {| fs := fs s; stdout := stdout s; frames := frames s;
               curstate_file := Some arg |})
  end.

(** How the process ends. *)
Inductive termination : Type :=
| Exit (code : Z)
| Uncaught (e : exn).

Definition newline : string := String "010"%char EmptyString.
Definition tab : string := String "009"%char EmptyString.

(** The candidate separators of [load_data], in its order. *)
Definition separators : list string := [tab; ","; " "].

(** ** The program *)

Section Program.

Context (E : Env).

Definition get_default_colors : M pyobj :=
  let TAXON_PALETTE := px_colors_qualitative_Vivid E in
  gambiae <- getitem TAXON_PALETTE 1 ;;
  coluzzii <- getitem TAXON_PALETTE 0 ;;
  arabiensis <- getitem TAXON_PALETTE 2 ;;
  merus <- getitem TAXON_PALETTE 3 ;;
  melas <- getitem TAXON_PALETTE 4 ;;
  quadriannulatus <- getitem TAXON_PALETTE 5 ;;
  fontenillei <- getitem TAXON_PALETTE 6 ;;
  gcx1 <- getitem TAXON_PALETTE 7 ;;
  gcx2 <- getitem TAXON_PALETTE 8 ;;
  gcx3 <- getitem TAXON_PALETTE 9 ;;
  gcx4 <- getitem TAXON_PALETTE 10 ;;
  bissau <- getitem TAXON_PALETTE 7 ;;
  pwani <- getitem TAXON_PALETTE 9 ;;
  ret (dict_display
         [("gambiae", PStr gambiae);
          ("coluzzii", PStr coluzzii);
          ("arabiensis", PStr arabiensis);
          ("merus", PStr merus);
          ("melas", PStr melas);
          ("quadriannulatus", PStr quadriannulatus);
          ("fontenillei", PStr fontenillei);
          ("gcx1", PStr gcx1);
          ("gcx2", PStr gcx2);
          ("gcx3", PStr gcx3);
          ("gcx4", PStr gcx4);
          ("bissau", PStr bissau);
          ("pwani", PStr pwani);
          ("unassigned", PStr "black")]).

Definition load_custom_colors (color_file : string) : M pyobj :=
  try_except
    (f <- open E color_file ;;
     call (json_load E f))
    (λ e, isinstance e Exception)
    (λ e,
       print ("Warning: Could not load custom colors from " +:+ color_file +:+ ": " +:+ str e) ;;
       print "Using default colors instead." ;;
       get_default_colors).

Definition validate_inputs (tree_file metadata_file : string) : M unit :=
  tree_exists <- os_path_exists tree_file ;;
  if negb tree_exists then
    raise FileNotFoundError ("Tree file not found: " +:+ tree_file)
  else
  metadata_exists <- os_path_exists metadata_file ;;
  if negb metadata_exists then
    raise FileNotFoundError ("Metadata file not found: " +:+ metadata_file)
  else
  try_except
    (f <- open E tree_file ;;
     content <- read E f ;;
     let content := Text.strip content in
     if bool_decide (content = []) then
       raise ValueError ("Tree file is empty: " +:+ tree_file)
     else ret tt)
    (λ e, isinstance e Exception)
    (λ e, raise ValueError ("Cannot read tree file " +:+ tree_file +:+ ": " +:+ str e)).

(** The [for sep in ...: ... else: ...] of [load_data]: a table of more
    than one column leaves the loop, a failed or single-column parse goes
    on to the next separator, and the [else] raises when none is left. *)
Fixpoint read_metadata (metadata_file : string) (seps : list string) : M nat :=
  match seps with
  | [] => raise ValueError "Could not parse metadata file with any common separator"
  | sep :: seps' =>
      found <- try_except
                 (metadata <- (λ s, call (pd_read_csv E (fs s) metadata_file sep) s) ;;
                  metadata <- new_frame metadata ;;
                  metadata_columns <- frame_columns metadata ;;
                  if bool_decide (1 < length metadata_columns)%nat
                  then ret (Some metadata)      (* break *)
                  else ret None)
                 (λ _, true)
                 (λ _, ret None) ;;             (* continue *)
      match found with
      | Some metadata => ret metadata
      | None => read_metadata metadata_file seps'
      end
  end.

(** The metadata block of [load_data], with its outer handler. *)
Definition load_metadata (metadata_file : string) : M nat :=
  try_except
    (read_metadata metadata_file separators)
    (λ e, isinstance e Exception)
    (λ e, raise ValueError ("Error loading metadata: " +:+ str e)).

Definition load_data (tree_file metadata_file color_column : string)
    (hover_columns : list string) : M (Tree * nat * list string) :=
  print ("Loading tree from: " +:+ tree_file) ;;
  tree <- try_except
            (λ s, call (bt_loadNewick E (fs s) tree_file) s)
            (λ e, isinstance e Exception)
            (λ e, raise ValueError ("Error loading tree: " +:+ str e)) ;;
  print ("Loading metadata from: " +:+ metadata_file) ;;
  metadata <- load_metadata metadata_file ;;
  print ("Loaded tree with " +:+ pretty (length (getExternal tree)) +:+ " tips") ;;
  samples <- frame_len metadata ;;
  print ("Loaded metadata for " +:+ pretty samples +:+ " samples") ;;
  metadata_columns <- frame_columns metadata ;;
  if bool_decide (color_column ∉ metadata_columns) then
    let available_cols := metadata_columns in
    raise ValueError ("Color column '" +:+ color_column +:+
                      "' not found in metadata. Available columns: " +:+
                      repr_list E available_cols)
  else
  let missing_hover := filter (λ col, col ∉ metadata_columns) hover_columns in
  if bool_decide (missing_hover ≠ []) then
    print ("Warning: Hover columns not found in metadata: " +:+ repr_list E missing_hover) ;;
    let hover_columns := filter (λ col, col ∈ metadata_columns) hover_columns in
    ret (tree, metadata, hover_columns)
  else
    ret (tree, metadata, hover_columns).

Definition create_plot (tree : Tree) (metadata : nat) (args : Args) (color_map : pyobj) : M Plot :=
  print "Creating phylogenetic tree plot..." ;;
  try_except
    (p <- bt_bokeh_plotTree E
            {| kw_tree := tree;
               kw_type := args_tree_type args;
               kw_df_metadata := metadata;
               kw_color_column := args_color_column args;
               kw_color_discrete_map := color_map;
               kw_size := args_marker_size args;
               kw_plot_width := args_width args;
               kw_plot_height := args_height args;
               kw_output_backend := args_backend args;
               kw_marker := args_marker args;
               kw_marker_line_color := "white";
               kw_marker_line_width := 0;
               kw_hover_data := args_hover_columns args;
               kw_max_branch_length := args_max_branch_length args;
               kw_min_branch_length := args_min_branch_length args |} ;;
     ret p)
    (λ e, isinstance e Exception)
    (λ e, raise RuntimeError ("Error creating plot: " +:+ str e)).

(** The parameter [output_file] is a local name, and the [import] of the
    first line binds that name again, to bokeh's function. *)
Definition save_plot (plot : Plot) (output_file : pyval) (show_plot : bool) : M unit :=
  let output_file := import_from "bokeh.plotting" "output_file" in
  let save := bokeh_save E in
  let show := bokeh_show E in
  print ("Saving plot to: " +:+ format E output_file) ;;
  output_path <- Path output_file ;;
  Path_mkdir_parents_exist_ok E (Path_parent E output_path) ;;
  call_value output_file output_file ;;
  (if show_plot then show plot else save plot) ;;
  print ("✅ Plot saved successfully to " +:+ format E output_file) ;;
  if negb show_plot then
    absolute <- abspath E output_file ;;
    print ("   Open in browser: file://" +:+ absolute)
  else ret tt.

(** The colour mapping of [main]: the file of [--custom-colors] when the
    option is given, the defaults otherwise. *)
Definition get_color_mapping (args : Args) : M pyobj :=
  if truthy (args_custom_colors args)
  then load_custom_colors (default EmptyString (args_custom_colors args))
  else get_default_colors.

(** The suite of the [try] of [main]. *)
Definition main_suite (args : Args) : M unit :=
  validate_inputs (args_tree args) (args_metadata args) ;;
  loaded <- load_data (args_tree args) (args_metadata args) (args_color_column args)
              (args_hover_columns args) ;;
  let '(tree, metadata, hover_columns) := loaded in
  let args := set_hover_columns args hover_columns in
  color_map <- get_color_mapping args ;;
  plot <- create_plot tree metadata args color_map ;;
  save_plot plot (VStr (args_output args)) (args_show_plot args).

(** The [try] statement of [main] around a suite: a normal end leaves the
    interpreter with status 0, [except KeyboardInterrupt] and
    [except Exception] print one message and call [sys.exit(1)], anything
    else goes up to the interpreter. *)
Definition toplevel (suite : M unit) (s : state) : termination * state :=
  match suite s with
  | (Returned _, s') => (Exit 0, s')
  | (Raised e, s') =>
      if isinstance e KeyboardInterrupt then
        (Exit 1, printed [newline +:+ "❌ Interrupted by user"] s')
      else if isinstance e Exception then
        (Exit 1, printed ["❌ Error: " +:+ str e] s')
      else (Uncaught e, s')
  end.

(** The [try] statement of [main], for the arguments that were parsed. *)
Definition main_try (args : Args) : state → termination * state :=
  toplevel (main_suite args).

(** The parser is argparse's; its options are those of the source. *)
Definition parse_arguments : state → parsed * state := parser_parse_args E.

(** [args = parse_arguments()] comes before the [try]: when argparse
    leaves, no handler of [main] is in the way and the process ends with
    the status of argparse. *)
Definition main (s : state) : termination * state :=
  match parse_arguments s with
  | (Parsed args, s') => main_try args s'
  | (Exited status, s') => (Exit status, s')
  end.

End Program.

(** The error of the [else] of the loop. *)
Definition no_separator : exn :=
  Exn ValueError "Could not parse metadata file with any common separator" None.

(** ** The words of the specification, for comparison *)

(** A candidate is passed over when its parse fails or has a single
    column (or none). *)
Definition passed_over (r : outcome DataFrame) : Prop :=
  match r with
  | Returned df => (length (columns df) ≤ 1)%nat
  | Raised _ => True
  end.

(** "Accepts the first candidate whose parse yields more than one
    column": the table of that candidate, if there is one. *)
Fixpoint first_multi_column (parse : string → outcome DataFrame) (seps : list string)
    : option DataFrame :=
  match seps with
  | [] => None
  | sep :: seps' =>
      match parse sep with
      | Returned df =>
          if bool_decide (1 < length (columns df))%nat then Some df
          else first_multi_column parse seps'
      | Raised _ => first_multi_column parse seps'
      end
  end.

(** The tables that were parsed and passed over before that. *)
Fixpoint passed_over_tables (parse : string → outcome DataFrame) (seps : list string)
    : list DataFrame :=
  match seps with
  | [] => []
  | sep :: seps' =>
      match parse sep with
      | Returned df =>
          if bool_decide (1 < length (columns df))%nat then []
          else df :: passed_over_tables parse seps'
      | Raised _ => passed_over_tables parse seps'
      end
  end.

(** Why the tree file behind an entry cannot be read, if it cannot: the
    error of [open], the error of [f.read()], or the error that the
    validator raises itself on a text that is empty once trimmed. *)
Definition unreadable_tree (E : Env) (tree_file : string) (entry : node) : option exn :=
  match entry with
  | Dir => Some (Exn IsADirectoryError ("[Errno 21] Is a directory: " +:+ repr E tree_file) None)
  | File false _ =>
      Some (Exn PermissionError ("[Errno 13] Permission denied: " +:+ repr E tree_file) None)
  | File true bytes =>
      match f_read E {| name := tree_file; data := bytes |} with
      | Decoded content =>
          if bool_decide (Text.strip content = []) then
            Some (Exn ValueError ("Tree file is empty: " +:+ tree_file) None)
          else None
      | Undecodable message => Some (Exn UnicodeDecodeError message None)
      | Unreadable message => Some (Exn OSError message None)
      end
  end.

(** What the contract of the validator, as amended, says of a pair of
    paths, read on the file system and the decoding: which way the call
    has to end. *)
Inductive verdict (E : Env) (tree_file metadata_file : string) (s : state)
    : outcome unit → Prop :=
| tree_missing e :
    fs s !! tree_file = None →
    exn_class e = FileNotFoundError →
    verdict E tree_file metadata_file s (Raised e)
| metadata_missing e :
    is_Some (fs s !! tree_file) →
    fs s !! metadata_file = None →
    exn_class e = FileNotFoundError →
    verdict E tree_file metadata_file s (Raised e)
| tree_closed e :
    is_Some (fs s !! tree_file) →
    is_Some (fs s !! metadata_file) →
    (∀ bytes, fs s !! tree_file ≠ Some (File true bytes)) →
    exn_class e = ValueError →
    verdict E tree_file metadata_file s (Raised e)
| tree_unread e bytes :
    fs s !! tree_file = Some (File true bytes) →
    is_Some (fs s !! metadata_file) →
    (∀ content, f_read E {| name := tree_file; data := bytes |} ≠ Decoded content) →
    exn_class e = ValueError →
    verdict E tree_file metadata_file s (Raised e)
| tree_blank e bytes content :
    fs s !! tree_file = Some (File true bytes) →
    is_Some (fs s !! metadata_file) →
    f_read E {| name := tree_file; data := bytes |} = Decoded content →
    Text.strip content = [] →
    exn_class e = ValueError →
    verdict E tree_file metadata_file s (Raised e)
| inputs_valid bytes content :
    fs s !! tree_file = Some (File true bytes) →
    is_Some (fs s !! metadata_file) →
    f_read E {| name := tree_file; data := bytes |} = Decoded content →
    Text.strip content ≠ [] →
    verdict E tree_file metadata_file s (Returned tt).


(** The keyword arguments that [create_plot] gives to [plotTree]. *)
Definition plot_request (tree : Tree) (metadata : nat) (args : Args) (color_map : pyobj)
    : PlotKwargs :=
  {| kw_tree := tree;
     kw_type := args_tree_type args;
     kw_df_metadata := metadata;
     kw_color_column := args_color_column args;
     kw_color_discrete_map := color_map;
     kw_size := args_marker_size args;
     kw_plot_width := args_width args;
     kw_plot_height := args_height args;
     kw_output_backend := args_backend args;
     kw_marker := args_marker args;
     kw_marker_line_color := "white";
     kw_marker_line_width := 0;
     kw_hover_data := args_hover_columns args;
     kw_max_branch_length := args_max_branch_length args;
     kw_min_branch_length := args_min_branch_length args |}.

(** A piece of code that, however it ends, leaves the file system and
    bokeh's output file as they were. *)
Definition reads_only {A : Type} (m : M A) : Prop :=
  ∀ s, fs (m s).2 = fs s ∧ curstate_file (m s).2 = curstate_file s.

(** ** A small world for the examples *)

Module Demo.

Definition LF : ascii := "010"%char.
Definition TAB : ascii := "009"%char.

Fixpoint split_on (sep : ascii) (s : string) : list string :=
  match s with
  | EmptyString => [EmptyString]
  | String c s' =>
      if Ascii.eqb c sep then EmptyString :: split_on sep s'
      else match split_on sep s' with
           | field :: fields => String c field :: fields
           | [] => [String c EmptyString]
           end
  end.

Definition lines (s : string) : list string :=
  filter (λ l, l ≠ EmptyString) (split_on LF s).

(** A reader of delimited text that stands for [pandas.read_csv]: the
    first line is the header, a row of another width is an error. *)
Definition read_csv (fsys : gmap string node) (path sep : string) : outcome DataFrame :=
  match fsys !! path with
  | Some (File true content) =>
      match sep, lines content with
      | String c EmptyString, header :: body =>
          let cols := split_on c header in
          let rws := split_on c <$> body in
          if forallb (λ r, bool_decide (length r = length cols)) rws
          then Returned {| columns := cols; rows := rws |}
          else Raised (Exn ValueError "Error tokenizing data" None)
      | _, _ => Raised (Exn ValueError "No columns to parse from file" None)
      end
  | _ => Raised (Exn FileNotFoundError "[Errno 2] No such file or directory" None)
  end.

(** A reader that stands for [baltic.loadNewick]: one leaf per
    comma-separated piece of a text that has its final semicolon. *)
Definition loadNewick (fsys : gmap string node) (path : string) : outcome Tree :=
  match fsys !! path with
  | Some (File true content) =>
      if Text.has_char ";"%char content
      then Returned {| getExternal := split_on ","%char content |}
      else Raised (Exn ValueError "tree string is not terminated" None)
  | _ => Raised (Exn FileNotFoundError "[Errno 2] No such file or directory" None)
  end.

Definition q : string := String Text.dquote EmptyString.

Definition backslash : ascii := "092"%char.

Definition hexdigit (n : N) : ascii :=
  match String.get (N.to_nat n) "0123456789abcdef" with
  | Some c => c
  | None => "0"%char
  end.

Definition hex (n : N) : string :=
  String (hexdigit (n / 16)) (String (hexdigit (n mod 16)) EmptyString).

(** The quoting that stands for [repr] on the names of the examples, as
    CPython's [unicode_repr] writes a text of ASCII characters. *)
Definition quoted_char (quote c : ascii) : string :=
  let n := N_of_ascii c in
  if Ascii.eqb c quote || Ascii.eqb c backslash then String backslash (String c EmptyString)
  else if (n =? 9)%N then String backslash "t"
  else if (n =? 10)%N then String backslash "n"
  else if (n =? 13)%N then String backslash "r"
  else if ((n <? 32) || (n =? 127))%N then String backslash (String "x" (hex n))
  else String c EmptyString.

Fixpoint quoted_body (quote : ascii) (s : string) : string :=
  match s with
  | EmptyString => EmptyString
  | String c s' => quoted_char quote c +:+ quoted_body quote s'
  end.

(** Single quotes, unless the text has a single quote and no double
    quote. *)
Definition quoted (s : string) : string :=
  let quote :=
    if Text.has_char Text.squote s && negb (Text.has_char Text.dquote s)
    then Text.dquote else Text.squote in
  String quote (quoted_body quote s +:+ String quote EmptyString).

(** The decoder that stands for [f.read()] under a UTF-8 locale: the
    code points, or the first bytes that are not UTF-8. *)
Inductive decoding : Type :=
| Points (content : list N)
| Invalid (byte : N) (first last : nat) (reason : string).

Definition more (c : N) (rest : decoding) : decoding :=
  match rest with
  | Points content => Points (c :: content)
  | Invalid _ _ _ _ => rest
  end.

Definition continuation (b : N) : bool := ((128 <=? b) && (b <=? 191))%N.

(** The second byte of a sequence, which also rules out the overlong
    forms, the surrogates and the code points above U+10FFFF. *)
Definition second (lead b : N) : bool :=
  (continuation b
   && (negb (lead =? 224) || (160 <=? b))
   && (negb (lead =? 237) || (b <=? 159))
   && (negb (lead =? 240) || (144 <=? b))
   && (negb (lead =? 244) || (b <=? 143)))%N.

Fixpoint utf8 (position : nat) (bs : list N) : decoding :=
  match bs with
  | [] => Points []
  | b :: bs1 =>
      if (b <? 128)%N then more b (utf8 (S position) bs1)
      else if ((194 <=? b) && (b <=? 223))%N then
        match bs1 with
        | [] => Invalid b position position "unexpected end of data"
        | c1 :: bs2 =>
            if continuation c1
            then more ((b - 192) * 64 + (c1 - 128))%N (utf8 (2 + position) bs2)
            else Invalid b position position "invalid continuation byte"
        end
      else if ((224 <=? b) && (b <=? 239))%N then
        match bs1 with
        | [] => Invalid b position position "unexpected end of data"
        | c1 :: bs2 =>
            if negb (second b c1) then Invalid b position position "invalid continuation byte"
            else
              match bs2 with
              | [] => Invalid b position (1 + position) "unexpected end of data"
              | c2 :: bs3 =>
                  if continuation c2
                  then more ((b - 224) * 4096 + (c1 - 128) * 64 + (c2 - 128))%N
                         (utf8 (3 + position) bs3)
                  else Invalid b position (1 + position) "invalid continuation byte"
              end
        end
      else if ((240 <=? b) && (b <=? 244))%N then
        match bs1 with
        | [] => Invalid b position position "unexpected end of data"
        | c1 :: bs2 =>
            if negb (second b c1) then Invalid b position position "invalid continuation byte"
            else
              match bs2 with
              | [] => Invalid b position (1 + position) "unexpected end of data"
              | c2 :: bs3 =>
                  if negb (continuation c2)
                  then Invalid b position (1 + position) "invalid continuation byte"
                  else
                    match bs3 with
                    | [] => Invalid b position (2 + position) "unexpected end of data"
                    | c3 :: bs4 =>
                        if continuation c3
                        then more ((b - 240) * 262144 + (c1 - 128) * 4096
                                   + (c2 - 128) * 64 + (c3 - 128))%N
                               (utf8 (4 + position) bs4)
                        else Invalid b position (2 + position) "invalid continuation byte"
                    end
              end
        end
      else Invalid b position position "invalid start byte"
  end.

Fixpoint bytes (s : string) : list N :=
  match s with
  | EmptyString => []
  | String c s' => N_of_ascii c :: bytes s'
  end.

Definition read_text (f : TextIO) : reading :=
  match utf8 0 (bytes (data f)) with
  | Points content => Decoded content
  | Invalid byte first last reason =>
      Undecodable
        ("'utf-8' codec can't decode " +:+
         (if bool_decide (first = last)
          then "byte 0x" +:+ hex byte +:+ " in position " +:+ pretty first
          else "bytes in position " +:+ pretty first +:+ "-" +:+ pretty last)
         +:+ ": " +:+ reason)
  end.

Definition colors_json : string :=
  "{" +:+ q +:+ "gambiae" +:+ q +:+ ": " +:+ q +:+ "red" +:+ q +:+ "}".

(** A decoder that stands for [json.load] on the files of the examples. *)
Definition json (f : TextIO) : outcome pyobj :=
  if bool_decide (data f = colors_json) then Returned (PDict [("gambiae", PStr "red")])
  else if bool_decide (data f = "{}") then Returned (PDict [])
  else Raised (Exn JSONDecodeError "Expecting value: line 1 column 1 (char 0)" None).

(** [px.colors.qualitative.Vivid] *)
Definition Vivid : list string :=
  ["rgb(229, 134, 6)"; "rgb(93, 105, 177)"; "rgb(82, 188, 163)"; "rgb(153, 201, 69)";
   "rgb(204, 97, 176)"; "rgb(36, 121, 108)"; "rgb(218, 165, 27)"; "rgb(47, 138, 196)";
   "rgb(118, 78, 159)"; "rgb(237, 100, 90)"; "rgb(165, 170, 153)"].

Definition plotTree (kw : PlotKwargs) : M Plot :=
  ret {| document := "<html>" +:+ kw_color_column kw +:+ "</html>" |}.

Fixpoint dirname (s : string) : string :=
  match s with
  | EmptyString => EmptyString
  | String c s' => if Text.has_char "/"%char s' then String c (dirname s') else EmptyString
  end.

Definition write (path : string) (n : node) : M unit :=
  λ s, (Returned tt,
        {| fs := <[path := n]> (fs s); stdout := stdout s; frames := frames s;
           curstate_file := curstate_file s |}).

Definition save (plot : Plot) : M unit :=
  λ s, match curstate_file s with
       | Some (VStr path) => write path (File true (document plot)) s
       | _ => raise RuntimeError "no output file" s
       end.

Definition run_args (tree_file metadata_file color_column : string)
    (hover_columns : list string) (custom_colors : option string) : Args :=
  {| args_tree := tree_file;
     args_metadata := metadata_file;
     args_output := "out/figs/tree.html";
     args_color_column := color_column;
     args_hover_columns := hover_columns;
     args_width := 1000;
     args_height := 1000;
     args_tree_type := "c";
     args_marker := "hex";
     args_marker_size := 15;
     args_max_branch_length := Float "0.005";
     args_min_branch_length := Float "5e-5";
     args_backend := "webgl";
     args_custom_colors := custom_colors;
     args_show_plot := false |}.

(** [--tree data/tree.nwk --metadata data/meta.tsv] *)
Definition args : Args :=
  run_args "data/tree.nwk" "data/meta.tsv" "taxon" ["taxon"; "country"] None.

(** A command line that argparse accepts. *)
Definition accepted (a : Args) : state → parsed * state := λ s, (Parsed a, s).

(** A command line without [--tree]: argparse writes its usage message
    to the standard error and leaves with status 2. *)
Definition refused : state → parsed * state := λ s, (Exited 2, s).

(** A world: the command line, the three readers, the palette and the
    plotting call. *)
Definition world (command_line : state → parsed * state)
    (newick : gmap string node → string → outcome Tree)
    (csv : gmap string node → string → string → outcome DataFrame)
    (decode : TextIO → outcome pyobj) (palette : list string)
    (plot : PlotKwargs → M Plot) : Env :=
  {| parser_parse_args := command_line;
     f_read := read_text;
     repr := quoted;
     bt_loadNewick := newick;
     pd_read_csv := csv;
     json_load := decode;
     px_colors_qualitative_Vivid := palette;
     bt_bokeh_plotTree := plot;
     Path_mkdir_parents_exist_ok := λ path, write path Dir;
     bokeh_save := save;
     bokeh_show := save;
     Path_parent := dirname;
     os_path_abspath := λ path, "/home/user/" +:+ path;
     function_address := λ _, "0x7f3a5c1d2e50" |}.

(** The world of the examples, by the command line. *)
Definition invoked (a : Args) : Env :=
  world (accepted a) loadNewick read_csv json Vivid plotTree.

Definition env : Env := invoked args.

(** The same world, with a user who interrupts the parse of the tree. *)
Definition interrupted : Env :=
  world (accepted args) (λ _ _, Raised (Exn KeyboardInterrupt EmptyString None))
    read_csv json Vivid plotTree.

Definition nl : string := String LF EmptyString.
Definition tb : string := String TAB EmptyString.


(** With a command line that argparse refuses. *)
Definition no_tree_option : Env := world refused loadNewick read_csv json Vivid plotTree.

(** The file "data/latin1.nwk" has a name in Latin-1, which is not UTF-8;
    "data/nbsp.nwk" is a no-break space (U+00A0) and a line end. *)
Definition files : gmap string node :=
  <["data" := Dir]>
  (<["data/tree.nwk" := File true "(A:0.1,(B:0.2,C:0.3):0.1);"]>
  (<["data/blank.nwk" := File true ("  " +:+ nl)]>
  (<["data/locked.nwk" := File false "(A:0.1,B:0.2);"]>
  (<["data/latin1.nwk" := File true ("(Caf" +:+ String "233"%char ":0.1,B:0.2);")]>
  (<["data/nbsp.nwk" := File true (String "194"%char (String "160"%char nl))]>
  (<["data/meta.tsv" :=
       File true ("sample" +:+ tb +:+ "taxon" +:+ tb +:+ "country" +:+ nl +:+
                  "A" +:+ tb +:+ "gambiae" +:+ tb +:+ "Mali" +:+ nl +:+
                  "B" +:+ tb +:+ "coluzzii" +:+ tb +:+ "Ghana" +:+ nl +:+
                  "C" +:+ tb +:+ "arabiensis" +:+ tb +:+ "Kenya" +:+ nl)]>
  (<["data/meta.csv" :=
       File true ("sample,taxon" +:+ nl +:+ "A,gambiae" +:+ nl +:+
                  "B,coluzzii" +:+ nl +:+ "C,arabiensis" +:+ nl)]>
  (<["data/names.txt" := File true ("sample" +:+ nl +:+ "A" +:+ nl +:+ "B" +:+ nl)]>
  (<["colors.json" := File true colors_json]>
  (<["broken.json" := File true "{gambiae: red"]> ∅)))))))))).

Definition start : state :=
  {| fs := files; stdout := []; frames := []; curstate_file := None |}.

(** The leaves and the tables that the readers find in [files]. *)
Definition tree : Tree := {| getExternal := ["(A:0.1"; "(B:0.2"; "C:0.3):0.1);"] |}.

Definition meta_tsv : DataFrame :=
  {| columns := ["sample"; "taxon"; "country"];
     rows := [["A"; "gambiae"; "Mali"]; ["B"; "coluzzii"; "Ghana"];
              ["C"; "arabiensis"; "Kenya"]] |}.

Definition meta_csv : DataFrame :=
  {| columns := ["sample"; "taxon"];
     rows := [["A"; "gambiae"]; ["B"; "coluzzii"]; ["C"; "arabiensis"]] |}.

(** Variants of the world: another palette, decoder or plotting call. *)
Definition customized (palette : list string) (decode : TextIO → outcome pyobj)
    (plot : PlotKwargs → M Plot) : Env :=
  world (accepted args) loadNewick read_csv decode palette plot.

Definition short_palette : Env := customized (take 5 Vivid) json plotTree.

Definition failing_plot : Env :=
  customized Vivid json (λ _, raise ValueError "Unknown marker type").

Definition interrupted_json : Env :=
  customized Vivid (λ _, Raised (Exn KeyboardInterrupt EmptyString None)) plotTree.

End Demo.

(** * Properties *)

(** ** Text *)

Lemma append_assoc (a b c : string) : (a +:+ b) +:+ c = a +:+ b +:+ c.
Proof. induction a as [|x a IH]; simpl; [done | by rewrite IH]. Qed.

Lemma append_empty_r (a : string) : a +:+ EmptyString = a.
Proof. induction a as [|x a IH]; simpl; [done | by rewrite IH]. Qed.

Lemma lstrip_empty (t : list N) : Text.lstrip t = [] ↔ forallb Text.isspace t = true.
Proof.
  induction t as [|c t IH]; simpl; [done |].
  destruct (Text.isspace c); simpl; [exact IH | split; discriminate].
Qed.

Lemma rstrip_empty (t : list N) : Text.rstrip t = [] ↔ forallb Text.isspace t = true.
Proof.
  induction t as [|c t IH]; simpl; [done |].
  destruct (Text.rstrip t) eqn:Hr.
  - destruct (Text.isspace c); simpl.
    + split; [intros _; by apply IH | done].
    + split; discriminate.
  - split; [discriminate |].
    intros [_ Hs]%andb_prop. apply IH in Hs. discriminate.
Qed.

Lemma forallb_isspace_lstrip (t : list N) :
  forallb Text.isspace (Text.lstrip t) = forallb Text.isspace t.
Proof.
  induction t as [|c t IH]; simpl; [done |].
  destruct (Text.isspace c) eqn:Hc; simpl; [exact IH | by rewrite Hc].
Qed.

(** The trimmed text is empty exactly when every character is white. *)
Lemma strip_empty (t : list N) : Text.strip t = [] ↔ forallb Text.isspace t = true.
Proof. unfold Text.strip. by rewrite rstrip_empty, forallb_isspace_lstrip. Qed.

Lemma prefixb_spec (p s : string) : Text.prefixb p s = true ↔ ∃ post, s = p +:+ post.
Proof.
  revert s. induction p as [|a p IH]; intros s; simpl.
  - split; [intros _; by exists s | done].
  - destruct s as [|b s].
    + split; [done | intros [post ?]; discriminate].
    + rewrite andb_true_iff, IH. split.
      * intros [->%Ascii.eqb_eq [post ->]]. by exists post.
      * intros [post [= -> ->]]. split; [apply Ascii.eqb_refl | by exists post].
Qed.

Lemma containsb_spec (needle hay : string) :
  Text.containsb needle hay = true ↔ Text.contains needle hay.
Proof.
  unfold Text.contains. induction hay as [|c hay IH].
  - simpl. rewrite orb_false_r, prefixb_spec. split.
    + intros [post ->]. by exists EmptyString, post.
    + intros [[|x pre] [post H]]; [by exists post |]. discriminate.
  - change (Text.containsb needle (String c hay))
      with (Text.prefixb needle (String c hay) || Text.containsb needle hay).
    rewrite orb_true_iff, prefixb_spec, IH. split.
    + intros [[post ->] | (pre & post & ->)].
      * by exists EmptyString, post.
      * by exists (String c pre), post.
    + intros [[|x pre] [post H]].
      * left. by exists post.
      * right. injection H as -> ->. by exists pre, post.
Qed.

Lemma contains_refl (s : string) : Text.contains s s.
Proof. exists EmptyString, EmptyString. simpl. by rewrite append_empty_r. Qed.

Lemma contains_append (needle a hay b : string) :
  Text.contains needle hay → Text.contains needle (a +:+ hay +:+ b).
Proof.
  intros (pre & post & ->). exists (a +:+ pre), (post +:+ b).
  by rewrite !append_assoc.
Qed.

Lemma contains_suffix (needle a hay : string) :
  Text.contains needle hay → Text.contains needle (a +:+ hay).
Proof.
  intros H. rewrite <- (append_empty_r hay). by apply contains_append.
Qed.

Lemma contains_join (sep x : string) (l : list string) :
  x ∈ l → Text.contains x (Text.join sep l).
Proof.
  induction l as [|y l IH]; [by intros ?%elem_of_nil |].
  intros [-> | Hin]%elem_of_cons.
  - destruct l as [|z l]; simpl; [apply contains_refl |].
    exists EmptyString, (sep +:+ Text.join sep (z :: l)). done.
  - destruct l as [|z l]; [by apply elem_of_nil in Hin |].
    change (Text.join sep (y :: z :: l)) with (y +:+ sep +:+ Text.join sep (z :: l)).
    apply contains_suffix, contains_suffix, IH, Hin.
Qed.

(** Every name of a list is in the text of the list, in its quoted form. *)
Lemma contains_repr_list (E : Env) (x : string) (l : list string) :
  x ∈ l → Text.contains (repr E x) (repr_list E l).
Proof.
  intros Hin. unfold repr_list.
  apply contains_append, contains_join, list_elem_of_fmap. by exists x.
Qed.

Example repr_list_columns : repr_list Demo.env ["sample"; "taxon"] = "['sample', 'taxon']".
Proof. reflexivity. Qed.

Example quoted_with_apostrophe :
  Demo.quoted "wild 'type'" = Demo.q +:+ "wild 'type'" +:+ Demo.q.
Proof. reflexivity. Qed.

Example quoted_escapes :
  Demo.quoted ("a" +:+ tab +:+ "b\c") = "'a\tb\\c'".
Proof. reflexivity. Qed.

Example strip_blank : Text.strip [32; 9; 10; 160; 8195; 12288]%N = [].
Proof. reflexivity. Qed.

Example strip_newick : Text.strip [32; 40; 65; 41; 59; 32; 10]%N = [40; 65; 41; 59]%N.
Proof. reflexivity. Qed.

Example read_text_utf8 :
  Demo.read_text {| name := "data/nbsp.nwk";
                    data := String "194"%char (String "160"%char Demo.nl) |}
    = Decoded [160; 10]%N ∧
  Demo.read_text {| name := "data/latin1.nwk";
                    data := "(Caf" +:+ String "233"%char ":0.1,B:0.2);" |}
    = Undecodable "'utf-8' codec can't decode byte 0xe9 in position 4: invalid continuation byte".
Proof. split; reflexivity. Qed.

Example parents_of_path :
  parents "out/figs/tree.html" = ["out"; "out/figs"] ∧ parents "/tmp/x" = ["/tmp"].
Proof. split; reflexivity. Qed.

Example file_errors_are_exceptions :
  issubclass FileNotFoundError Exception = true ∧
  issubclass JSONDecodeError ValueError = true ∧
  issubclass KeyboardInterrupt Exception = false.
Proof. by vm_compute. Qed.

(** ** The state *)

Lemma printed_printed (l1 l2 : list string) (s : state) :
  printed l2 (printed l1 s) = printed (l1 ++ l2) s.
Proof. unfold printed; simpl. by rewrite <- app_assoc. Qed.

Lemma printed_nil (s : state) : printed [] s = s.
Proof. destruct s. unfold printed; simpl. by rewrite app_nil_r. Qed.

(** ** Input Validator *)

(** [open], by the entry behind the path. *)
Lemma open_file (E : Env) (path content : string) (s : state) :
  fs s !! path = Some (File true content) →
  open E path s = (Returned {| name := path; data := content |}, s).
Proof. intros Hfile. unfold open. by rewrite Hfile. Qed.

Lemma open_closed (E : Env) (path : string) (s : state) :
  (∀ content, fs s !! path ≠ Some (File true content)) →
  ∃ cause, isinstance cause OSError = true ∧ open E path s = (Raised cause, s).
Proof.
  intros Hclosed. unfold open.
  destruct (fs s !! path) as [[|[] content]|] eqn:Hfile.
  - eexists. split; [|reflexivity]. reflexivity.
  - by destruct (Hclosed content).
  - eexists. split; [|reflexivity]. reflexivity.
  - destruct (through_file (fs s) path); (eexists; split; [|reflexivity]); reflexivity.
Qed.

(** [validate_inputs], case by case on the two entries. *)
Lemma validate_inputs_cases (E : Env) (tree_file metadata_file : string) (s : state) :
  validate_inputs E tree_file metadata_file s =
  match fs s !! tree_file, fs s !! metadata_file with
  | None, _ =>
      (Raised (Exn FileNotFoundError ("Tree file not found: " +:+ tree_file) None), s)
  | Some _, None =>
      (Raised (Exn FileNotFoundError ("Metadata file not found: " +:+ metadata_file) None), s)
  | Some entry, Some _ =>
      match unreadable_tree E tree_file entry with
      | Some cause =>
          (Raised (Exn ValueError ("Cannot read tree file " +:+ tree_file +:+ ": " +:+ str cause)
                     (Some cause)), s)
      | None => (Returned tt, s)
      end
  end.
Proof.
  unfold validate_inputs, bind, os_path_exists, try_except, open, read, raise, ret.
  destruct (fs s !! tree_file) as [n|] eqn:Ht; simpl; [|done].
  destruct (fs s !! metadata_file) as [n'|] eqn:Hm; simpl; [|done].
  rewrite Ht. destruct n as [|[] bytes]; simpl; try done.
  destruct (f_read E _) as [content|message|message]; simpl; try done.
  by destruct (bool_decide (Text.strip content = [])).
Qed.

(** Whatever keeps the tree file from being read is of the [Exception]
    family. *)
Lemma unreadable_tree_cause (E : Env) (tree_file : string) (entry : node) (cause : exn) :
  unreadable_tree E tree_file entry = Some cause →
  isinstance cause OSError = true ∨
  exn_class cause = UnicodeDecodeError ∨
  cause = Exn ValueError ("Tree file is empty: " +:+ tree_file) None.
Proof.
  unfold unreadable_tree.
  destruct entry as [|[] bytes]; [intros [= <-]; by left | | intros [= <-]; by left].
  destruct (f_read E _) as [content|message|message].
  - case_bool_decide; [intros [= <-]; by right; right | done].
  - intros [= <-]. by right; left.
  - intros [= <-]. by left.
Qed.

(** The validator raises nothing but its two errors, and leaves the
    state as it was. *)
Lemma validate_inputs_raises_exception (E : Env) (tree_file metadata_file : string)
    (s s' : state) (e : exn) :
  validate_inputs E tree_file metadata_file s = (Raised e, s') →
  isinstance e Exception = true ∧ isinstance e KeyboardInterrupt = false ∧ s' = s ∧
  (exn_class e = FileNotFoundError ∨ exn_class e = ValueError).
Proof.
  rewrite validate_inputs_cases.
  destruct (fs s !! tree_file) as [entry|]; [|intros [= <- <-]; split_and!; by try left].
  destruct (fs s !! metadata_file) as [n|]; [|intros [= <- <-]; split_and!; by try left].
  destruct (unreadable_tree E tree_file entry) as [cause|]; [|done].
  intros [= <- <-]. split_and!; by try right.
Qed.

(** An entry cannot be there and missing. *)
Ltac entry_absurd :=
  repeat match goal with
    | H : is_Some None |- _ => destruct H as [? ?]; discriminate
    | H : ?x = None, H' : is_Some ?x |- _ => rewrite H in H'
    | H : ?x = None, H' : ?x = Some _ |- _ => congruence
    end.

(** The call ends the way the contract, as amended, says, and leaves the
    state as it was. *)
Lemma validate_inputs_verdict (E : Env) (tree_file metadata_file : string) (s : state) :
  verdict E tree_file metadata_file s (validate_inputs E tree_file metadata_file s).1 ∧
  (validate_inputs E tree_file metadata_file s).2 = s.
Proof.
  rewrite validate_inputs_cases.
  destruct (fs s !! tree_file) as [entry|] eqn:Htree.
  - destruct (fs s !! metadata_file) as [n|] eqn:Hmetadata.
    + unfold unreadable_tree. destruct entry as [|[] bytes].
      * split; [|done]. apply tree_closed; [by eexists.. | intros; congruence | done].
      * destruct (f_read E _) as [content|message|message] eqn:Hread.
        -- case_bool_decide; (split; [|done]).
           ++ by eapply tree_blank.
           ++ by eapply inputs_valid.
        -- split; [|done].
           eapply tree_unread; [done | by eexists | intros; congruence | done].
        -- split; [|done].
           eapply tree_unread; [done | by eexists | intros; congruence | done].
      * split; [|done]. apply tree_closed; [by eexists.. | intros; congruence | done].
    + split; [|done]. apply metadata_missing; [by eexists | done | done].
  - destruct (fs s !! metadata_file); (split; [|done]); by apply tree_missing.
Qed.

(** Of the metadata path only the existence counts. *)
Lemma validate_inputs_metadata_content (E : Env) (tree_file metadata_file : string)
    (s s' : state) :
  fs s' !! tree_file = fs s !! tree_file →
  (is_Some (fs s' !! metadata_file) ↔ is_Some (fs s !! metadata_file)) →
  (validate_inputs E tree_file metadata_file s').1 =
  (validate_inputs E tree_file metadata_file s).1.
Proof.
  intros Htree [Hto Hfrom]. rewrite !validate_inputs_cases, Htree.
  destruct (fs s !! tree_file) as [entry|]; [|done].
  destruct (fs s !! metadata_file) as [n|], (fs s' !! metadata_file) as [n'|].
  - by destruct (unreadable_tree E tree_file entry).
  - destruct Hfrom as [x Hx]; [by eexists | discriminate Hx].
  - destruct Hto as [x Hx]; [by eexists | discriminate Hx].
  - done.
Qed.

(** C7, as amended. [validate_inputs] fails with a [FileNotFoundError]
    exactly when one of the two paths does not exist. With both paths
    there, it fails with a [ValueError] exactly when the tree file cannot
    be opened, or it opens and cannot be read as text (its bytes do not
    decode, or the read fails), or its text is empty once trimmed. It
    succeeds in the one remaining case: the file opens, reads, and has a
    character that is not white space. Of the metadata path only the
    existence is looked at, and the state (file system and output) is
    left as it was. A text is empty once trimmed exactly when all its
    characters are white space. *)
Theorem validate_inputs_raises_iff (E : Env) (tree_file metadata_file : string) (s : state) :
  let result := (validate_inputs E tree_file metadata_file s).1 in
  let opens bytes := fs s !! tree_file = Some (File true bytes) in
  let reads bytes := f_read E {| name := tree_file; data := bytes |} in
  (validate_inputs E tree_file metadata_file s).2 = s ∧
  ((∃ e, result = Raised e ∧ exn_class e = FileNotFoundError)
     ↔ fs s !! tree_file = None ∨ fs s !! metadata_file = None) ∧
  ((∃ e, result = Raised e ∧ exn_class e = ValueError)
     ↔ is_Some (fs s !! tree_file) ∧ is_Some (fs s !! metadata_file) ∧
       ((∀ bytes, ¬ opens bytes) ∨
        (∃ bytes, opens bytes ∧ ∀ content, reads bytes ≠ Decoded content) ∨
        (∃ bytes content,
           opens bytes ∧ reads bytes = Decoded content ∧ Text.strip content = []))) ∧
  (result = Returned tt
     ↔ is_Some (fs s !! metadata_file) ∧
       ∃ bytes content,
         opens bytes ∧ reads bytes = Decoded content ∧ Text.strip content ≠ []) ∧
  (∀ s', fs s' !! tree_file = fs s !! tree_file →
         (is_Some (fs s' !! metadata_file) ↔ is_Some (fs s !! metadata_file)) →
         (validate_inputs E tree_file metadata_file s').1 = result) ∧
  (∀ content, Text.strip content = [] ↔ forallb Text.isspace content = true).
Proof.
  intros result opens reads. subst opens reads.
  destruct (validate_inputs_verdict E tree_file metadata_file s) as [Hverdict Hstate].
  fold result in Hverdict.
  split_and!; [exact Hstate | | | | | exact strip_empty].
  - destruct Hverdict
      as [e Ht He|e Ht Hm He|e Ht Hm Hc He|e b Ht Hm Hr He|e b c Ht Hm Hr Hc He|b c Ht Hm Hr Hc];
      (split; [intros (e' & Hraised & He') | intros Hmissing]).
    + by left.
    + by exists e.
    + by right.
    + by exists e.
    + injection Hraised as <-. congruence.
    + destruct Hmissing; entry_absurd.
    + injection Hraised as <-. congruence.
    + destruct Hmissing; entry_absurd.
    + injection Hraised as <-. congruence.
    + destruct Hmissing; entry_absurd.
    + discriminate Hraised.
    + destruct Hmissing; entry_absurd.
  - destruct Hverdict
      as [e Ht He|e Ht Hm He|e Ht Hm Hc He|e b Ht Hm Hr He|e b c Ht Hm Hr Hc He|b c Ht Hm Hr Hc];
      (split; [intros (e' & Hraised & He') | intros (Ht' & Hm' & Hwhy)]).
    + injection Hraised as <-. congruence.
    + entry_absurd.
    + injection Hraised as <-. congruence.
    + entry_absurd.
    + split_and!; [done | done | by left].
    + by exists e.
    + split_and!; [by rewrite Ht | done | right; left; by exists b].
    + by exists e.
    + split_and!; [by rewrite Ht | done | right; right; by exists b, c].
    + by exists e.
    + discriminate Hraised.
    + destruct Hwhy as [Hno | [(b' & Hb' & Hnot) | (b' & c' & Hb' & Hr' & Hblank)]].
      * by destruct (Hno b).
      * assert (b' = b) as -> by congruence. by destruct (Hnot c).
      * assert (b' = b) as -> by congruence. congruence.
  - destruct Hverdict
      as [e Ht He|e Ht Hm He|e Ht Hm Hc He|e b Ht Hm Hr He|e b c Ht Hm Hr Hc He|b c Ht Hm Hr Hc];
      (split; [intros Hreturned | intros (Hm' & b' & c' & Hb' & Hr' & Hfull)]);
      try discriminate Hreturned.
    + entry_absurd.
    + entry_absurd.
    + by destruct (Hc b').
    + assert (b' = b) as -> by congruence. by destruct (Hr c').
    + assert (b' = b) as -> by congruence. congruence.
    + split; [done | by exists b, c].
    + done.
  - intros s'. apply validate_inputs_metadata_content.
Qed.

Lemma validate_inputs_raises_iff_witness :
  validate_inputs Demo.env "data/tree.nwk" "data/meta.tsv" Demo.start
    = (Returned tt, Demo.start) ∧
  (∃ e, (validate_inputs Demo.env "data/nbsp.nwk" "data/meta.tsv" Demo.start).1 = Raised e ∧
        exn_class e = ValueError) ∧
  (∃ e, (validate_inputs Demo.env "data/latin1.nwk" "data/meta.tsv" Demo.start).1 = Raised e ∧
        exn_class e = ValueError) ∧
  (∃ e, (validate_inputs Demo.env "data/tree.nwk" "nowhere.tsv" Demo.start).1 = Raised e ∧
        exn_class e = FileNotFoundError) ∧
  (validate_inputs Demo.env "data/tree.nwk" "data" Demo.start).1 = Returned tt.
Proof.
  split_and!.
  - destruct (validate_inputs_raises_iff Demo.env "data/tree.nwk" "data/meta.tsv" Demo.start)
      as (Hstate & _ & _ & Hok & _).
    destruct (validate_inputs Demo.env "data/tree.nwk" "data/meta.tsv" Demo.start) as [r s'].
    simpl in Hstate, Hok. rewrite Hstate. f_equal. apply Hok. split.
    + vm_compute. eexists. reflexivity.
    + exists "(A:0.1,(B:0.2,C:0.3):0.1);". eexists.
      split_and!; [vm_compute; reflexivity | vm_compute; reflexivity | vm_compute; discriminate].
  - apply (proj1 (proj2 (proj2
             (validate_inputs_raises_iff Demo.env "data/nbsp.nwk" "data/meta.tsv" Demo.start)))).
    split_and!; [vm_compute; eexists; reflexivity.. |].
    right. right. exists (String "194"%char (String "160"%char Demo.nl)), [160; 10]%N.
    split_and!; vm_compute; reflexivity.
  - apply (proj1 (proj2 (proj2
             (validate_inputs_raises_iff Demo.env "data/latin1.nwk" "data/meta.tsv"
                Demo.start)))).
    split_and!; [vm_compute; eexists; reflexivity.. |].
    right. left. exists ("(Caf" +:+ String "233"%char ":0.1,B:0.2);").
    split; [vm_compute; reflexivity | intros content; vm_compute; discriminate].
  - apply (proj1 (proj2
             (validate_inputs_raises_iff Demo.env "data/tree.nwk" "nowhere.tsv" Demo.start))).
    right. vm_compute. reflexivity.
  - apply (proj1 (proj2 (proj2 (proj2
             (validate_inputs_raises_iff Demo.env "data/tree.nwk" "data" Demo.start))))).
    split.
    + vm_compute. eexists. reflexivity.
    + exists "(A:0.1,(B:0.2,C:0.3):0.1);". eexists.
      split_and!; [vm_compute; reflexivity | vm_compute; reflexivity | vm_compute; discriminate].
Defined.

(** C7, as the claim has it, fails on a tree file that opens and whose
    content is not white space, yet cannot be read as text: the name in
    "data/latin1.nwk" is in Latin-1 and the decoding is UTF-8. The file
    can be opened, no decoded text of it is empty once trimmed (none of
    its bytes is a white space either), and the validator fails with a
    [ValueError] all the same, whose cause is the [UnicodeDecodeError] of
    [f.read()]. *)
Lemma validate_inputs_undecodable_counterexample :
  let bytes := "(Caf" +:+ String "233"%char ":0.1,B:0.2);" in
  let cause :=
    Exn UnicodeDecodeError
      "'utf-8' codec can't decode byte 0xe9 in position 4: invalid continuation byte" None in
  fs Demo.start !! "data/latin1.nwk" = Some (File true bytes) ∧
  is_Some (fs Demo.start !! "data/meta.tsv") ∧
  forallb (λ b, negb (Text.isspace b)) (Demo.bytes bytes) = true ∧
  ¬ ((∀ content, fs Demo.start !! "data/latin1.nwk" ≠ Some (File true content)) ∨
     (∃ content text,
        fs Demo.start !! "data/latin1.nwk" = Some (File true content) ∧
        f_read Demo.env {| name := "data/latin1.nwk"; data := content |} = Decoded text ∧
        Text.strip text = [])) ∧
  validate_inputs Demo.env "data/latin1.nwk" "data/meta.tsv" Demo.start =
    (Raised (Exn ValueError ("Cannot read tree file data/latin1.nwk: " +:+ str cause)
               (Some cause)),
     Demo.start).
Proof.
  intros bytes cause. split_and!.
  - vm_compute. reflexivity.
  - vm_compute. eexists. reflexivity.
  - vm_compute. reflexivity.
  - intros [Hclosed | (content & text & Hfile & Hread & _)].
    + apply (Hclosed bytes). vm_compute. reflexivity.
    + assert (content = bytes) as ->.
      { assert (Hbytes : fs Demo.start !! "data/latin1.nwk" = Some (File true bytes))
          by (vm_compute; reflexivity).
        congruence. }
      vm_compute in Hread. discriminate Hread.
  - vm_compute. reflexivity.
Qed.

Example validate_inputs_locked :
  validate_inputs Demo.env "data/locked.nwk" "data/meta.tsv" Demo.start =
    (Raised (Exn ValueError
               "Cannot read tree file data/locked.nwk: [Errno 13] Permission denied: 'data/locked.nwk'"
               (Some (Exn PermissionError "[Errno 13] Permission denied: 'data/locked.nwk'" None))),
     Demo.start).
Proof. by vm_compute. Qed.

Example validate_inputs_blank :
  validate_inputs Demo.env "data/blank.nwk" "data/meta.tsv" Demo.start =
    (Raised (Exn ValueError
               "Cannot read tree file data/blank.nwk: Tree file is empty: data/blank.nwk"
               (Some (Exn ValueError "Tree file is empty: data/blank.nwk" None))),
     Demo.start).
Proof. by vm_compute. Qed.

(** A path through a regular file: [os.path.exists] is false, and
    [open] fails with a [NotADirectoryError]. *)
Example open_through_file :
  os_path_exists "colors.json/extra" Demo.start = (Returned false, Demo.start) ∧
  open Demo.env "colors.json/extra" Demo.start =
    (Raised (Exn NotADirectoryError "[Errno 20] Not a directory: 'colors.json/extra'" None),
     Demo.start).
Proof. split; by vm_compute. Qed.

(** ** Metadata Loader *)

Lemma with_frames_with_frames (l1 l2 : list DataFrame) (s : state) :
  with_frames l2 (with_frames l1 s) = with_frames (l1 ++ l2) s.
Proof. unfold with_frames; simpl. by rewrite <- app_assoc. Qed.

Lemma with_frames_nil (s : state) : with_frames [] s = s.
Proof. destruct s. unfold with_frames; simpl. by rewrite app_nil_r. Qed.

Lemma with_frames_printed (l : list DataFrame) (lines : list string) (s : state) :
  with_frames l (printed lines s) = printed lines (with_frames l s).
Proof. done. Qed.

(** The loop, against the words of the specification: the reference
    returned is that of the first table of more than one column, which
    is put in the store after the tables that were passed over. *)
Lemma read_metadata_spec (E : Env) (metadata_file : string) (seps : list string) (s : state) :
  let parse := pd_read_csv E (fs s) metadata_file in
  let junk := passed_over_tables parse seps in
  read_metadata E metadata_file seps s =
  match first_multi_column parse seps with
  | Some df => (Returned (length (frames s ++ junk)), with_frames (junk ++ [df]) s)
  | None =>
      (Raised (Exn ValueError "Could not parse metadata file with any common separator" None),
       with_frames junk s)
  end.
Proof.
  revert s. induction seps as [|sep seps IH]; intros s; cbn zeta.
  - cbn. by rewrite with_frames_nil.
  - cbn [read_metadata first_multi_column passed_over_tables].
    unfold bind at 1. unfold try_except at 1. unfold bind at 1. unfold call at 1.
    destruct (pd_read_csv E (fs s) metadata_file sep) as [df|e] eqn:Hparse.
    + unfold bind, new_frame, frame_columns, ret. cbn [frames with_frames].
      rewrite (list_lookup_middle _ [] df) by done.
      cbn [fmap option_fmap option_map default]. unfold id.
      destruct (bool_decide (1 < length (columns df))%nat) eqn:Hwide.
      * by rewrite app_nil_r.
      * rewrite IH. cbn [fs with_frames frames].
        destruct (first_multi_column _ seps);
          by rewrite with_frames_with_frames, <- ?app_assoc.
    + unfold ret. rewrite IH. done.
Qed.

Lemma first_multi_column_at (parse : string → outcome DataFrame) (seps : list string)
    (i : nat) (sep : string) (df : DataFrame) :
  seps !! i = Some sep →
  parse sep = Returned df →
  (1 < length (columns df))%nat →
  (∀ j sep', (j < i)%nat → seps !! j = Some sep' → passed_over (parse sep')) →
  first_multi_column parse seps = Some df.
Proof.
  revert i. induction seps as [|sep0 seps IH]; intros i Hi Hdf Hwide Hbefore; [done |].
  destruct i as [|i]; simpl in *.
  - injection Hi as ->. rewrite Hdf. by rewrite bool_decide_eq_true_2.
  - assert (Hfirst : passed_over (parse sep0)) by (apply (Hbefore 0%nat); [lia | done]).
    assert (Hrest : first_multi_column parse seps = Some df).
    { apply (IH i); try done. intros j sep' Hj Hl. apply (Hbefore (S j)); [lia | done]. }
    destruct (parse sep0) as [df0|e]; [|done].
    simpl in Hfirst. rewrite bool_decide_eq_false_2 by lia. done.
Qed.

Lemma first_multi_column_none (parse : string → outcome DataFrame) (seps : list string) :
  (∀ sep, sep ∈ seps → passed_over (parse sep)) →
  first_multi_column parse seps = None.
Proof.
  induction seps as [|sep0 seps IH]; intros Hall; [done |]. simpl.
  assert (Hfirst : passed_over (parse sep0)) by (apply Hall; left).
  assert (Hrest : first_multi_column parse seps = None)
    by (apply IH; intros sep Hin; apply Hall; by right).
  destruct (parse sep0) as [df0|e]; [|done].
  simpl in Hfirst. by rewrite bool_decide_eq_false_2 by lia.
Qed.

(** The metadata block, against the words of the specification. *)
Lemma load_metadata_spec (E : Env) (metadata_file : string) (s : state) :
  let parse := pd_read_csv E (fs s) metadata_file in
  let junk := passed_over_tables parse separators in
  load_metadata E metadata_file s =
  match first_multi_column parse separators with
  | Some df => (Returned (length (frames s ++ junk)), with_frames (junk ++ [df]) s)
  | None =>
      (Raised (Exn ValueError
                 "Error loading metadata: Could not parse metadata file with any common separator"
                 (Some no_separator)),
       with_frames junk s)
  end.
Proof.
  cbn zeta. unfold load_metadata, try_except. rewrite read_metadata_spec.
  by destruct (first_multi_column _ separators).
Qed.

(** C2, as amended. The candidates are the tab, the comma and the space,
    in this order. If the candidate at position [i] parses to a table of
    more than one column and every earlier candidate fails or parses to
    a single column, the loader returns a reference to that very table
    and changes neither the file system nor the output. If every
    candidate fails or parses to a single column, the loader raises a
    [ValueError] whose text is "Error loading metadata: Could not parse
    metadata file with any common separator". *)
Theorem load_metadata_first_multi_column (E : Env) (metadata_file : string) (s : state) :
  let parse := pd_read_csv E (fs s) metadata_file in
  separators = [tab; ","; " "] ∧
  (∀ i sep df,
     separators !! i = Some sep →
     parse sep = Returned df →
     (1 < length (columns df))%nat →
     (∀ j sep', (j < i)%nat → separators !! j = Some sep' → passed_over (parse sep')) →
     ∃ metadata s',
       load_metadata E metadata_file s = (Returned metadata, s') ∧
       frames s' !! metadata = Some df ∧
       fs s' = fs s ∧ stdout s' = stdout s) ∧
  ((∀ sep, sep ∈ separators → passed_over (parse sep)) →
   ∃ e s',
     load_metadata E metadata_file s = (Raised e, s') ∧
     exn_class e = ValueError ∧
     str e = "Error loading metadata: Could not parse metadata file with any common separator" ∧
     fs s' = fs s ∧ stdout s' = stdout s).
Proof.
  intros parse. split_and!; [done | |].
  - intros i sep df Hi Hdf Hwide Hbefore.
    pose proof (load_metadata_spec E metadata_file s) as Hspec. cbn zeta in Hspec.
    rewrite (first_multi_column_at _ _ i sep df) in Hspec by done.
    eexists _, _. split_and!; [exact Hspec | | done..].
    cbn [frames with_frames]. rewrite app_assoc. by apply list_lookup_middle.
  - intros Hall.
    pose proof (load_metadata_spec E metadata_file s) as Hspec. cbn zeta in Hspec.
    rewrite first_multi_column_none in Hspec by done.
    eexists _, _. split_and!; [exact Hspec | done..].
Qed.

Lemma load_metadata_first_multi_column_witness :
  (∃ metadata s',
     load_metadata Demo.env "data/meta.csv" Demo.start = (Returned metadata, s') ∧
     frames s' !! metadata =
       Some {| columns := ["sample"; "taxon"];
               rows := [["A"; "gambiae"]; ["B"; "coluzzii"]; ["C"; "arabiensis"]] |} ∧
     fs s' = fs Demo.start ∧ stdout s' = stdout Demo.start) ∧
  (∃ e s',
     load_metadata Demo.env "data/names.txt" Demo.start = (Raised e, s') ∧
     exn_class e = ValueError ∧
     str e = "Error loading metadata: Could not parse metadata file with any common separator" ∧
     fs s' = fs Demo.start ∧ stdout s' = stdout Demo.start).
Proof.
  split.
  - apply (proj1 (proj2 (load_metadata_first_multi_column Demo.env "data/meta.csv" Demo.start))
             1%nat ",").
    + reflexivity.
    + vm_compute. reflexivity.
    + simpl. lia.
    + intros [|j] sep' Hj Hsep; [|lia]. injection Hsep as <-. vm_compute. lia.
  - apply (proj2 (proj2 (load_metadata_first_multi_column Demo.env "data/names.txt" Demo.start))).
    intros sep Hin. unfold separators in Hin.
    repeat (apply elem_of_cons in Hin as [-> | Hin]); [vm_compute; lia.. |].
    by apply elem_of_nil in Hin.
Defined.

(** C2, as the claim has it, fails on the text of the error: with a file
    of a single column under every candidate, the text is not "could not
    parse metadata with any common separator". *)
Lemma load_metadata_message_counterexample :
  (∀ sep, sep ∈ separators →
          passed_over (pd_read_csv Demo.env (fs Demo.start) "data/names.txt" sep)) ∧
  ∃ e s',
    load_metadata Demo.env "data/names.txt" Demo.start = (Raised e, s') ∧
    str e ≠ "could not parse metadata with any common separator".
Proof.
  split.
  - intros sep Hin. unfold separators in Hin.
    repeat (apply elem_of_cons in Hin as [-> | Hin]); [vm_compute; lia.. |].
    by apply elem_of_nil in Hin.
  - eexists _, _. split; [vm_compute; reflexivity | discriminate].
Qed.

(** ** Tree Loader and Schema Reconciler *)

(** [load_data] once the tree is parsed and a candidate is accepted. *)
Lemma load_data_spec (E : Env) (tree_file metadata_file color_column : string)
    (hover_columns : list string) (s : state) (tree : Tree) (df : DataFrame) :
  bt_loadNewick E (fs s) tree_file = Returned tree →
  first_multi_column (pd_read_csv E (fs s) metadata_file) separators = Some df →
  let junk := passed_over_tables (pd_read_csv E (fs s) metadata_file) separators in
  let metadata := length (frames s ++ junk) in
  let s1 :=
    with_frames (junk ++ [df])
      (printed ["Loading tree from: " +:+ tree_file;
                "Loading metadata from: " +:+ metadata_file;
                "Loaded tree with " +:+ pretty (length (getExternal tree)) +:+ " tips";
                "Loaded metadata for " +:+ pretty (length (rows df)) +:+ " samples"] s) in
  let missing_hover := filter (λ col, col ∉ columns df) hover_columns in
  load_data E tree_file metadata_file color_column hover_columns s =
  if bool_decide (color_column ∉ columns df) then
    (Raised (Exn ValueError
               ("Color column '" +:+ color_column +:+
                "' not found in metadata. Available columns: " +:+
                repr_list E (columns df)) None), s1)
  else if bool_decide (missing_hover ≠ []) then
    (Returned (tree, metadata, filter (λ col, col ∈ columns df) hover_columns),
     printed ["Warning: Hover columns not found in metadata: " +:+
              repr_list E missing_hover] s1)
  else (Returned (tree, metadata, hover_columns), s1).
Proof.
  intros Htree Hfirst. cbn zeta.
  unfold load_data.
  unfold bind at 1. unfold print at 1.
  unfold bind at 1. unfold try_except at 1. unfold call at 1.
  cbn [fs printed]. rewrite Htree.
  unfold bind at 1. unfold print at 1.
  unfold bind at 1. rewrite load_metadata_spec.
  cbn [fs printed]. rewrite Hfirst.
  unfold bind at 1. unfold print at 1.
  unfold bind at 1. unfold frame_len at 1.
  unfold bind at 1. unfold print at 1.
  unfold bind at 1. unfold frame_columns at 1.
  cbn [frames printed with_frames].
  rewrite !app_assoc, (list_lookup_middle _ [] df) by done.
  cbn [fmap option_fmap option_map default compose]. unfold id.
  rewrite !printed_printed. cbn [app].
  rewrite <- (with_frames_printed _ _ (printed _ s)), printed_printed. cbn [app].
  destruct (bool_decide (color_column ∉ columns df)); [done |].
  destruct (bool_decide (filter (λ col, col ∉ columns df) hover_columns ≠ [])); done.
Qed.

Lemma filter_none_missing (cols hover_columns : list string) :
  filter (λ col, col ∉ cols) hover_columns = [] →
  filter (λ col, col ∈ cols) hover_columns = hover_columns.
Proof.
  induction hover_columns as [|col l IH]; [done |].
  rewrite !filter_cons. destruct (decide (col ∉ cols)) as [Hout|Hin]; [done |].
  intros Hl. destruct (decide (col ∈ cols)) as [_|Hout]; [by rewrite IH |].
  by destruct Hin.
Qed.

(** [load_data] when the parser of the tree fails. *)
Lemma load_data_tree_failed (E : Env) (tree_file metadata_file color_column : string)
    (hover_columns : list string) (s : state) (cause : exn) :
  bt_loadNewick E (fs s) tree_file = Raised cause →
  load_data E tree_file metadata_file color_column hover_columns s =
    (Raised (if isinstance cause Exception
             then Exn ValueError ("Error loading tree: " +:+ str cause) (Some cause)
             else cause),
     printed ["Loading tree from: " +:+ tree_file] s).
Proof.
  intros Hcause. unfold load_data.
  unfold bind at 1. unfold print at 1.
  unfold bind at 1. unfold try_except at 1. unfold call at 1.
  cbn [fs printed]. rewrite Hcause. by destruct (isinstance cause Exception).
Qed.

(** [load_data] when the tree is parsed and no candidate is accepted. *)
Lemma load_data_metadata_failed (E : Env) (tree_file metadata_file color_column : string)
    (hover_columns : list string) (s : state) (tree : Tree) :
  bt_loadNewick E (fs s) tree_file = Returned tree →
  first_multi_column (pd_read_csv E (fs s) metadata_file) separators = None →
  load_data E tree_file metadata_file color_column hover_columns s =
    (Raised (Exn ValueError
               "Error loading metadata: Could not parse metadata file with any common separator"
               (Some no_separator)),
     with_frames (passed_over_tables (pd_read_csv E (fs s) metadata_file) separators)
       (printed ["Loading tree from: " +:+ tree_file;
                 "Loading metadata from: " +:+ metadata_file] s)).
Proof.
  intros Htree Hnone. unfold load_data.
  unfold bind at 1. unfold print at 1.
  unfold bind at 1. unfold try_except at 1. unfold call at 1.
  cbn [fs printed]. rewrite Htree.
  unfold bind at 1. unfold print at 1.
  unfold bind at 1. rewrite load_metadata_spec.
  cbn [fs printed]. rewrite Hnone. by rewrite printed_printed.
Qed.

(** C6, as amended. When the tree parser fails with an exception of the
    [Exception] family, [load_data] raises a [ValueError] whose text is
    "Error loading tree: " followed by the text of the cause, and whose
    context is the cause. The path of the tree file is not put in the
    error; it is on the output line "Loading tree from: ..." printed
    just before. *)
Theorem load_data_tree_error (E : Env) (tree_file metadata_file color_column : string)
    (hover_columns : list string) (s : state) (cause : exn) :
  bt_loadNewick E (fs s) tree_file = Raised cause →
  isinstance cause Exception = true →
  load_data E tree_file metadata_file color_column hover_columns s =
    (Raised (Exn ValueError ("Error loading tree: " +:+ str cause) (Some cause)),
     printed ["Loading tree from: " +:+ tree_file] s) ∧
  Text.contains (str cause) ("Error loading tree: " +:+ str cause).
Proof.
  intros Hcause Hexc. split.
  - unfold load_data.
    unfold bind at 1. unfold print at 1.
    unfold bind at 1. unfold try_except at 1. unfold call at 1.
    cbn [fs printed]. by rewrite Hcause, Hexc.
  - apply contains_suffix, contains_refl.
Qed.

Lemma load_data_tree_error_witness :
  load_data Demo.env "data/blank.nwk" "data/meta.tsv" "taxon" ["taxon"] Demo.start =
    (Raised (Exn ValueError "Error loading tree: tree string is not terminated"
               (Some (Exn ValueError "tree string is not terminated" None))),
     printed ["Loading tree from: data/blank.nwk"] Demo.start) ∧
  Text.contains "tree string is not terminated"
    "Error loading tree: tree string is not terminated".
Proof.
  apply (load_data_tree_error Demo.env "data/blank.nwk" "data/meta.tsv" "taxon" ["taxon"]
           Demo.start (Exn ValueError "tree string is not terminated" None)).
  - vm_compute. reflexivity.
  - vm_compute. reflexivity.
Defined.

(** C6, as the claim has it, fails on the path: the parser fails on
    "data/blank.nwk", and neither the error raised by [load_data] nor its
    context has the path in its text. *)
Lemma load_data_tree_error_counterexample :
  ∃ cause e s',
    bt_loadNewick Demo.env (fs Demo.start) "data/blank.nwk" = Raised cause ∧
    load_data Demo.env "data/blank.nwk" "data/meta.tsv" "taxon" ["taxon"] Demo.start
      = (Raised e, s') ∧
    ¬ Text.contains "data/blank.nwk" (str e) ∧
    exn_context e = Some cause ∧
    ¬ Text.contains "data/blank.nwk" (str cause).
Proof.
  eexists _, _, _. split_and!.
  - vm_compute. reflexivity.
  - vm_compute. reflexivity.
  - intros H%containsb_spec. vm_compute in H. discriminate.
  - reflexivity.
  - intros H%containsb_spec. vm_compute in H. discriminate.
Qed.

(** What [main] does after a successful validation and [load_data]. *)
Lemma main_suite_loaded (E : Env) (args : Args) (s s' : state)
    (tree : Tree) (metadata : nat) (hover_columns : list string) :
  validate_inputs E (args_tree args) (args_metadata args) s = (Returned tt, s) →
  load_data E (args_tree args) (args_metadata args) (args_color_column args)
    (args_hover_columns args) s = (Returned (tree, metadata, hover_columns), s') →
  main_suite E args s =
    (let args := set_hover_columns args hover_columns in
     color_map <- get_color_mapping E args ;;
     plot <- create_plot E tree metadata args color_map ;;
     save_plot E plot (VStr (args_output args)) (args_show_plot args)) s'.
Proof.
  intros Hvalid Hload. unfold main_suite.
  unfold bind at 1. rewrite Hvalid. unfold bind at 1. by rewrite Hload.
Qed.

Lemma main_suite_load_failed (E : Env) (args : Args) (s s' : state) (e : exn) :
  validate_inputs E (args_tree args) (args_metadata args) s = (Returned tt, s) →
  load_data E (args_tree args) (args_metadata args) (args_color_column args)
    (args_hover_columns args) s = (Raised e, s') →
  main_suite E args s = (Raised e, s').
Proof.
  intros Hvalid Hload. unfold main_suite.
  unfold bind at 1. rewrite Hvalid. unfold bind at 1. by rewrite Hload.
Qed.

(** C3. With the tree parsed and [df] the metadata table that is loaded
    (the first of more than one column among the candidates), a colour
    column that is not among the columns of [df] makes [load_data] raise a
    [ValueError] whose text ends with the list of all the columns of the
    table, as Python writes a list: every column is in the text, in the
    form that [repr] of the interpreter gives it. The error is not
    handled before the top level, where the [try] of [main] prints it and
    leaves with status 1. *)
Theorem load_data_color_column_missing (E : Env) (args : Args) (s : state)
    (tree : Tree) (df : DataFrame) :
  bt_loadNewick E (fs s) (args_tree args) = Returned tree →
  first_multi_column (pd_read_csv E (fs s) (args_metadata args)) separators = Some df →
  args_color_column args ∉ columns df →
  ∃ e s',
    load_data E (args_tree args) (args_metadata args) (args_color_column args)
      (args_hover_columns args) s = (Raised e, s') ∧
    exn_class e = ValueError ∧
    str e = "Color column '" +:+ args_color_column args +:+
            "' not found in metadata. Available columns: " +:+
            repr_list E (columns df) ∧
    Text.contains (repr_list E (columns df)) (str e) ∧
    (∀ col, col ∈ columns df → Text.contains (repr E col) (str e)) ∧
    (validate_inputs E (args_tree args) (args_metadata args) s = (Returned tt, s) →
     main_try E args s = (Exit 1, printed ["❌ Error: " +:+ str e] s')).
Proof.
  intros Htree Hfirst Hmissing.
  pose proof (load_data_spec E (args_tree args) (args_metadata args) (args_color_column args)
                (args_hover_columns args) s tree df Htree Hfirst) as Hload.
  cbn zeta in Hload. rewrite bool_decide_eq_true_2 in Hload by done.
  eexists _, _. split_and!; [exact Hload | done | done | | |].
  - cbn [str]. do 3 apply contains_suffix. apply contains_refl.
  - intros col Hcol. cbn [str]. do 3 apply contains_suffix.
    by apply contains_repr_list.
  - intros Hvalid. unfold main_try, toplevel.
    by rewrite (main_suite_load_failed E args s _ _ Hvalid Hload).
Qed.

Lemma load_data_color_column_missing_witness :
  ∃ e s',
    load_data Demo.env "data/tree.nwk" "data/meta.csv" "species" ["taxon"] Demo.start
      = (Raised e, s') ∧
    exn_class e = ValueError ∧
    str e = "Color column 'species' not found in metadata. Available columns: ['sample', 'taxon']" ∧
    Text.contains (repr_list Demo.env ["sample"; "taxon"]) (str e) ∧
    (∀ col, col ∈ ["sample"; "taxon"] → Text.contains (repr Demo.env col) (str e)) ∧
    (validate_inputs Demo.env "data/tree.nwk" "data/meta.csv" Demo.start = (Returned tt, Demo.start) →
     main_try Demo.env (Demo.run_args "data/tree.nwk" "data/meta.csv" "species" ["taxon"] None)
       Demo.start = (Exit 1, printed ["❌ Error: " +:+ str e] s')).
Proof.
  apply (load_data_color_column_missing Demo.env
           (Demo.run_args "data/tree.nwk" "data/meta.csv" "species" ["taxon"] None)
           Demo.start Demo.tree Demo.meta_csv).
  - vm_compute. reflexivity.
  - vm_compute. reflexivity.
  - apply (bool_decide_unpack _). vm_compute. exact I.
Defined.

(** C4. With the tree parsed, [df] the metadata table that is loaded
    (the first of more than one column among the candidates) and the
    colour column present, [load_data] returns, whatever hover columns
    were asked for: the list returned is the list asked for, filtered to
    the columns of [df], in the order of the request. When some are
    missing, one warning line is printed whose text has each of them, in
    the form that [repr] of the interpreter gives it; when none is, no
    warning is printed. *)
Theorem load_data_hover_columns (E : Env) (tree_file metadata_file color_column : string)
    (hover_columns : list string) (s : state) (tree : Tree) (df : DataFrame) :
  bt_loadNewick E (fs s) tree_file = Returned tree →
  first_multi_column (pd_read_csv E (fs s) metadata_file) separators = Some df →
  color_column ∈ columns df →
  let missing_hover := filter (λ col, col ∉ columns df) hover_columns in
  let kept := filter (λ col, col ∈ columns df) hover_columns in
  let progress :=
    ["Loading tree from: " +:+ tree_file;
     "Loading metadata from: " +:+ metadata_file;
     "Loaded tree with " +:+ pretty (length (getExternal tree)) +:+ " tips";
     "Loaded metadata for " +:+ pretty (length (rows df)) +:+ " samples"] in
  let warning :=
    "Warning: Hover columns not found in metadata: " +:+ repr_list E missing_hover in
  ∃ metadata s',
    load_data E tree_file metadata_file color_column hover_columns s
      = (Returned (tree, metadata, kept), s') ∧
    kept `sublist_of` hover_columns ∧
    (∀ col, col ∈ kept ↔ col ∈ hover_columns ∧ col ∈ columns df) ∧
    (missing_hover = [] → stdout s' = stdout s ++ progress) ∧
    (missing_hover ≠ [] → stdout s' = stdout s ++ progress ++ [warning]) ∧
    (∀ col, col ∈ missing_hover → Text.contains (repr E col) warning).
Proof.
  intros Htree Hfirst Hcolor. cbn zeta.
  pose proof (load_data_spec E tree_file metadata_file color_column hover_columns s tree df
                Htree Hfirst) as Hload.
  cbn zeta in Hload. rewrite bool_decide_eq_false_2 in Hload by (by intros Hout).
  destruct (decide (filter (λ col, col ∉ columns df) hover_columns = [])) as [Hnone|Hsome].
  - rewrite bool_decide_eq_false_2 in Hload by (by intros Hne).
    rewrite (filter_none_missing _ _ Hnone). eexists _, _. split_and!.
    + exact Hload.
    + done.
    + intros col. rewrite <- (filter_none_missing _ _ Hnone) at 1.
      rewrite list_elem_of_filter. tauto.
    + done.
    + done.
    + intros col Hcol. apply contains_suffix. by apply contains_repr_list.
  - rewrite bool_decide_eq_true_2 in Hload by done. eexists _, _. split_and!.
    + exact Hload.
    + apply sublist_filter.
    + intros col. rewrite list_elem_of_filter. tauto.
    + done.
    + intros _. cbn [stdout printed with_frames]. by rewrite <- app_assoc.
    + intros col Hcol. apply contains_suffix. by apply contains_repr_list.
Qed.

Lemma load_data_hover_columns_witness :
  ∃ metadata s',
    load_data Demo.env "data/tree.nwk" "data/meta.csv" "taxon" ["taxon"; "country"] Demo.start
      = (Returned (Demo.tree, metadata, ["taxon"]), s') ∧
    stdout s' =
      ["Loading tree from: data/tree.nwk";
       "Loading metadata from: data/meta.csv";
       "Loaded tree with 3 tips";
       "Loaded metadata for 3 samples";
       "Warning: Hover columns not found in metadata: ['country']"].
Proof.
  destruct (load_data_hover_columns Demo.env "data/tree.nwk" "data/meta.csv" "taxon"
              ["taxon"; "country"] Demo.start Demo.tree Demo.meta_csv)
    as (metadata & s' & Hload & _ & _ & _ & Hwarn & _).
  - vm_compute. reflexivity.
  - vm_compute. reflexivity.
  - apply (bool_decide_unpack _). vm_compute. exact I.
  - exists metadata, s'. split; [exact Hload |].
    rewrite Hwarn; [reflexivity | discriminate].
Defined.

(** C9. With the tree parsed, [df] the table of the accepted candidate
    and the colour column present, the table that the parse put in the
    store is the table that [load_data] returns a reference to: the
    colour-column check and the hover-column reconciliation leave the
    whole store as the metadata block left it, so every row and column
    of the table, and every older object, is as it was. Only the hover
    list changes, to its filtered version, and [main] goes on with that
    list in [args], every other field of [args] and the same reference. *)
Theorem load_data_metadata_unchanged (E : Env) (args : Args) (s : state)
    (tree : Tree) (df : DataFrame) :
  bt_loadNewick E (fs s) (args_tree args) = Returned tree →
  first_multi_column (pd_read_csv E (fs s) (args_metadata args)) separators = Some df →
  args_color_column args ∈ columns df →
  let kept := filter (λ col, col ∈ columns df) (args_hover_columns args) in
  ∃ metadata s1 s2,
    load_metadata E (args_metadata args)
      (printed ["Loading tree from: " +:+ args_tree args;
                "Loading metadata from: " +:+ args_metadata args] s)
      = (Returned metadata, s1) ∧
    frames s1 !! metadata = Some df ∧
    load_data E (args_tree args) (args_metadata args) (args_color_column args)
      (args_hover_columns args) s = (Returned (tree, metadata, kept), s2) ∧
    frames s2 = frames s1 ∧
    frames s2 !! metadata = Some df ∧
    fs s2 = fs s ∧
    (∀ r old, frames s !! r = Some old → frames s2 !! r = Some old) ∧
    (validate_inputs E (args_tree args) (args_metadata args) s = (Returned tt, s) →
     main_suite E args s =
       (color_map <- get_color_mapping E (set_hover_columns args kept) ;;
        plot <- create_plot E tree metadata (set_hover_columns args kept) color_map ;;
        save_plot E plot (VStr (args_output args)) (args_show_plot args)) s2) ∧
    set_hover_columns args kept =
      {| args_tree := args_tree args;
         args_metadata := args_metadata args;
         args_output := args_output args;
         args_color_column := args_color_column args;
         args_hover_columns := kept;
         args_width := args_width args;
         args_height := args_height args;
         args_tree_type := args_tree_type args;
         args_marker := args_marker args;
         args_marker_size := args_marker_size args;
         args_max_branch_length := args_max_branch_length args;
         args_min_branch_length := args_min_branch_length args;
         args_backend := args_backend args;
         args_custom_colors := args_custom_colors args;
         args_show_plot := args_show_plot args |}.
Proof.
  intros Htree Hfirst Hcolor kept.
  pose proof (load_data_spec E (args_tree args) (args_metadata args) (args_color_column args)
                (args_hover_columns args) s tree df Htree Hfirst) as Hload.
  cbn zeta in Hload. rewrite bool_decide_eq_false_2 in Hload by (by intros Hout).
  pose proof (load_metadata_spec E (args_metadata args)
                (printed ["Loading tree from: " +:+ args_tree args;
                          "Loading metadata from: " +:+ args_metadata args] s)) as Hmeta.
  cbn zeta in Hmeta. cbn [fs printed] in Hmeta. rewrite Hfirst in Hmeta.
  assert (Hstore : ∀ junk : list DataFrame,
            (frames s ++ junk ++ [df]) !! length (frames s ++ junk) = Some df).
  { intros junk. rewrite app_assoc. by apply list_lookup_middle. }
  destruct (decide (filter (λ col, col ∉ columns df) (args_hover_columns args) = []))
    as [Hnone|Hsome].
  - rewrite bool_decide_eq_false_2 in Hload by (by intros Hne).
    assert (Hkept : args_hover_columns args = kept)
      by (symmetry; by apply filter_none_missing).
    rewrite Hkept in Hload at 2.
    eexists _, _, _. split_and!;
      [exact Hmeta | apply Hstore | exact Hload | done | apply Hstore | done | | | done].
    + intros r old Hold. cbn [frames printed with_frames]. by apply lookup_app_l_Some.
    + intros Hvalid. by rewrite (main_suite_loaded E args s _ tree _ kept Hvalid Hload).
  - rewrite bool_decide_eq_true_2 in Hload by done. fold kept in Hload.
    eexists _, _, _. split_and!;
      [exact Hmeta | apply Hstore | exact Hload | done | apply Hstore | done | | | done].
    + intros r old Hold. cbn [frames printed with_frames]. by apply lookup_app_l_Some.
    + intros Hvalid. by rewrite (main_suite_loaded E args s _ tree _ kept Hvalid Hload).
Qed.

Lemma load_data_metadata_unchanged_witness :
  ∃ metadata s1 s2,
    load_metadata Demo.env "data/meta.tsv"
      (printed ["Loading tree from: data/tree.nwk";
                "Loading metadata from: data/meta.tsv"] Demo.start)
      = (Returned metadata, s1) ∧
    frames s1 !! metadata = Some Demo.meta_tsv ∧
    load_data Demo.env "data/tree.nwk" "data/meta.tsv" "taxon" ["taxon"; "region"; "country"]
      Demo.start = (Returned (Demo.tree, metadata, ["taxon"; "country"]), s2) ∧
    frames s2 = frames s1 ∧
    frames s2 !! metadata = Some Demo.meta_tsv.
Proof.
  destruct (load_data_metadata_unchanged Demo.env
              (Demo.run_args "data/tree.nwk" "data/meta.tsv" "taxon"
                 ["taxon"; "region"; "country"] None)
              Demo.start Demo.tree Demo.meta_tsv)
    as (metadata & s1 & s2 & Hmeta & Hdf1 & Hload & Hsame & Hdf2 & _).
  - vm_compute. reflexivity.
  - vm_compute. reflexivity.
  - apply (bool_decide_unpack _). vm_compute. exact I.
  - exists metadata, s1, s2. split_and!; [exact Hmeta | exact Hdf1 | exact Hload | exact Hsame | exact Hdf2].
Defined.

(** ** Color Resolver *)

Ltac palette_cases E Hlen :=
  destruct (px_colors_qualitative_Vivid E)
    as [|c0 [|c1 [|c2 [|c3 [|c4 [|c5 [|c6 [|c7 [|c8 [|c9 [|c10 rest]]]]]]]]]]]
    eqn:Hpalette;
  simpl in Hlen; try lia.

(** With eleven colours in the palette the default mapping is built, the
    same at every call, and nothing else happens. *)
Lemma get_default_colors_pure (E : Env) :
  (11 ≤ length (px_colors_qualitative_Vivid E))%nat →
  ∃ colors, ∀ s, get_default_colors E s = (Returned colors, s).
Proof.
  intros Hlen. palette_cases E Hlen.
  eexists. intros s. unfold get_default_colors. rewrite Hpalette. reflexivity.
Qed.

(** C10. With a palette of at least eleven colours, every call of
    [get_default_colors] returns the same mapping and leaves the state
    as it was. The mapping has 14 distinct keys: thirteen taxon labels,
    each with the palette colour at a fixed index between 0 and 10, and
    "unassigned" with "black". Two pairs of labels have the same
    colour: "bissau" and "gcx1" (index 7), "pwani" and "gcx3"
    (index 9). *)
Theorem get_default_colors_constant (E : Env) :
  let palette := px_colors_qualitative_Vivid E in
  (11 ≤ length palette)%nat →
  ∃ colors,
    (∀ s, get_default_colors E s = (Returned colors, s)) ∧
    dict_keys colors =
      ["gambiae"; "coluzzii"; "arabiensis"; "merus"; "melas"; "quadriannulatus";
       "fontenillei"; "gcx1"; "gcx2"; "gcx3"; "gcx4"; "bissau"; "pwani"; "unassigned"] ∧
    length (dict_keys colors) = 14%nat ∧
    NoDup (dict_keys colors) ∧
    (∀ label i,
       (label, i) ∈ [("gambiae", 1); ("coluzzii", 0); ("arabiensis", 2); ("merus", 3);
                     ("melas", 4); ("quadriannulatus", 5); ("fontenillei", 6);
                     ("gcx1", 7); ("gcx2", 8); ("gcx3", 9); ("gcx4", 10);
                     ("bissau", 7); ("pwani", 9)]%nat →
       (i ≤ 10)%nat ∧ is_Some (palette !! i) ∧
       dict_get colors label = PStr <$> palette !! i) ∧
    dict_get colors "unassigned" = Some (PStr "black") ∧
    dict_get colors "bissau" = dict_get colors "gcx1" ∧
    dict_get colors "bissau" = PStr <$> palette !! 7%nat ∧
    dict_get colors "pwani" = dict_get colors "gcx3" ∧
    dict_get colors "pwani" = PStr <$> palette !! 9%nat.
Proof.
  intros palette Hlen. subst palette. palette_cases E Hlen.
  eexists. split_and!.
  - intros s. unfold get_default_colors. rewrite Hpalette. reflexivity.
  - reflexivity.
  - reflexivity.
  - apply (bool_decide_unpack _). vm_compute. exact I.
  - intros label i Hin.
    repeat (apply elem_of_cons in Hin as [[= -> ->] | Hin]);
      [by (split_and!; [lia | eexists; reflexivity | reflexivity]).. |].
    by apply elem_of_nil in Hin.
  - reflexivity.
  - reflexivity.
  - reflexivity.
  - reflexivity.
  - reflexivity.
Qed.

Lemma get_default_colors_constant_witness :
  ∃ colors,
    (∀ s, get_default_colors Demo.env s = (Returned colors, s)) ∧
    length (dict_keys colors) = 14%nat ∧
    dict_get colors "gambiae" = Some (PStr "rgb(93, 105, 177)") ∧
    dict_get colors "bissau" = Some (PStr "rgb(47, 138, 196)") ∧
    dict_get colors "gcx1" = Some (PStr "rgb(47, 138, 196)") ∧
    dict_get colors "unassigned" = Some (PStr "black").
Proof.
  destruct (get_default_colors_constant Demo.env)
    as (colors & Hcall & _ & Hsize & _ & Htable & Hblack & Hsame & _).
  - simpl. lia.
  - exists colors. split_and!; [exact Hcall | exact Hsize | | | | exact Hblack].
    + apply (Htable "gambiae" 1%nat). apply (bool_decide_unpack _). vm_compute. exact I.
    + apply (Htable "bissau" 7%nat). apply (bool_decide_unpack _). vm_compute. exact I.
    + apply (Htable "gcx1" 7%nat). apply (bool_decide_unpack _). vm_compute. exact I.
Defined.

Lemma oserror_exception (e : exn) :
  isinstance e OSError = true → isinstance e Exception = true.
Proof. destruct e as [[] text context]; vm_compute; congruence. Qed.

(** The fallback of [load_custom_colors]: two lines of warning, then the
    default mapping. *)
Lemma load_custom_colors_fallback (E : Env) (color_file : string) (s : state)
    (cause : exn) (defaults : pyobj) :
  (∀ s0, get_default_colors E s0 = (Returned defaults, s0)) →
  (f <- open E color_file ;; call (json_load E f)) s = (Raised cause, s) →
  isinstance cause Exception = true →
  load_custom_colors E color_file s =
    (Returned defaults,
     printed ["Warning: Could not load custom colors from " +:+ color_file +:+ ": " +:+ str cause;
              "Using default colors instead."] s).
Proof.
  intros Hdefaults Hbody Hexc. unfold load_custom_colors, try_except.
  rewrite Hbody, Hexc. unfold bind, print. rewrite Hdefaults, printed_printed. done.
Qed.

(** C5. With a palette of at least eleven colours, so that the default
    mapping exists: when the file opens and decodes, the result of
    [load_custom_colors] is the decoded value and nothing is printed;
    when the decoder fails with an exception of the [Exception] family,
    or the file cannot be opened, the result is the default mapping,
    whole, after a warning that names the file and the cause. In [main],
    the mapping is the result of [load_custom_colors] when the option is
    given, and the default mapping when it is not: one or the other. *)
Theorem load_custom_colors_all_or_nothing (E : Env) (color_file : string) (s : state) :
  (11 ≤ length (px_colors_qualitative_Vivid E))%nat →
  let warned cause :=
    printed ["Warning: Could not load custom colors from " +:+ color_file +:+ ": " +:+ str cause;
             "Using default colors instead."] s in
  ∃ defaults,
    (∀ s0, get_default_colors E s0 = (Returned defaults, s0)) ∧
    (∀ content decoded,
       fs s !! color_file = Some (File true content) →
       json_load E {| name := color_file; data := content |} = Returned decoded →
       load_custom_colors E color_file s = (Returned decoded, s)) ∧
    (∀ content cause,
       fs s !! color_file = Some (File true content) →
       json_load E {| name := color_file; data := content |} = Raised cause →
       isinstance cause Exception = true →
       load_custom_colors E color_file s = (Returned defaults, warned cause)) ∧
    ((∀ content, fs s !! color_file ≠ Some (File true content)) →
     ∃ cause,
       isinstance cause OSError = true ∧
       load_custom_colors E color_file s = (Returned defaults, warned cause)) ∧
    (∀ args,
       get_color_mapping E args s =
         match args_custom_colors args with
         | Some (String c path) => load_custom_colors E (String c path) s
         | Some EmptyString | None => (Returned defaults, s)
         end).
Proof.
  intros Hlen warned. subst warned.
  destruct (get_default_colors_pure E Hlen) as [defaults Hdefaults].
  exists defaults. split_and!; [done | | | |].
  - intros content decoded Hfile Hjson.
    unfold load_custom_colors, try_except, bind, call.
    by rewrite (open_file E _ _ _ Hfile), Hjson.
  - intros content cause Hfile Hjson Hexc.
    apply load_custom_colors_fallback; [done | | done].
    unfold bind, call. by rewrite (open_file E _ _ _ Hfile), Hjson.
  - intros Hclosed.
    destruct (open_closed E color_file s Hclosed) as (cause & Hos & Hopen).
    exists cause. split; [done |].
    apply load_custom_colors_fallback; [done | unfold bind; by rewrite Hopen |].
    by apply oserror_exception.
  - intros args. unfold get_color_mapping.
    destruct (args_custom_colors args) as [[|c path]|]; simpl; by rewrite ?Hdefaults.
Qed.

Lemma load_custom_colors_all_or_nothing_witness :
  ∃ defaults,
    (∀ s0, get_default_colors Demo.env s0 = (Returned defaults, s0)) ∧
    load_custom_colors Demo.env "colors.json" Demo.start
      = (Returned (PDict [("gambiae", PStr "red")]), Demo.start) ∧
    load_custom_colors Demo.env "broken.json" Demo.start
      = (Returned defaults,
         printed ["Warning: Could not load custom colors from broken.json: Expecting value: line 1 column 1 (char 0)";
                  "Using default colors instead."] Demo.start) ∧
    (∃ cause,
       isinstance cause OSError = true ∧
       load_custom_colors Demo.env "missing.json" Demo.start
         = (Returned defaults,
            printed ["Warning: Could not load custom colors from missing.json: " +:+ str cause;
                     "Using default colors instead."] Demo.start)).
Proof.
  destruct (load_custom_colors_all_or_nothing Demo.env "colors.json" Demo.start)
    as (defaults & Hdefaults & Hvalid & _); [simpl; lia |].
  destruct (load_custom_colors_all_or_nothing Demo.env "broken.json" Demo.start)
    as (defaults' & Hdefaults' & _ & Hbroken & _); [simpl; lia |].
  destruct (load_custom_colors_all_or_nothing Demo.env "missing.json" Demo.start)
    as (defaults'' & Hdefaults'' & _ & _ & Hmissing & _); [simpl; lia |].
  assert (defaults' = defaults) as ->.
  { specialize (Hdefaults Demo.start). specialize (Hdefaults' Demo.start). congruence. }
  assert (defaults'' = defaults) as ->.
  { specialize (Hdefaults Demo.start). specialize (Hdefaults'' Demo.start). congruence. }
  exists defaults. split_and!.
  - exact Hdefaults.
  - apply (Hvalid Demo.colors_json); vm_compute; reflexivity.
  - apply (Hbroken "{gambiae: red"
             (Exn JSONDecodeError "Expecting value: line 1 column 1 (char 0)" None));
      vm_compute; reflexivity.
  - apply Hmissing. intros content. vm_compute. discriminate.
Defined.

(** ** Output Writer *)

(** Whatever the destination and the flag, [save_plot] stops at
    [Path(output_file)] with a [TypeError]: by then the name is bound to
    the imported function. Nothing but the first line has been printed,
    and no directory or file has been made. *)
Lemma save_plot_raises (E : Env) (plot : Plot) (output_file : pyval) (show_plot : bool)
    (s : state) :
  save_plot E plot output_file show_plot s =
    (Raised (Exn TypeError "expected str, bytes or os.PathLike object, not function" None),
     printed ["Saving plot to: <function output_file at " +:+
              function_address E "output_file" +:+ ">"] s).
Proof. reflexivity. Qed.

(** C1, on the code. The destination "out/figs/tree.html" has no parent
    directory yet and the flag is false; the call does not succeed: it
    raises a [TypeError], and afterwards the directories "out" and
    "out/figs" and the file are still missing. *)
Theorem save_plot_shadowed_path :
  let plot := {| document := "<html></html>" |} in
  fs Demo.start !! "out" = None ∧
  fs Demo.start !! "out/figs" = None ∧
  ∃ e s',
    save_plot Demo.env plot (VStr "out/figs/tree.html") false Demo.start = (Raised e, s') ∧
    exn_class e = TypeError ∧
    fs s' = fs Demo.start ∧
    fs s' !! "out" = None ∧
    fs s' !! "out/figs" = None ∧
    fs s' !! "out/figs/tree.html" = None.
Proof.
  intros plot. split_and!; [by vm_compute.. |].
  eexists _, _. split_and!; [apply save_plot_raises | done | done | by vm_compute..].
Qed.

(** [create_plot], by the outcome of the call to the collaborator. *)
Lemma create_plot_cases (E : Env) (tree : Tree) (metadata : nat) (args : Args)
    (color_map : pyobj) (s : state) :
  create_plot E tree metadata args color_map s =
    match bt_bokeh_plotTree E (plot_request tree metadata args color_map)
            (printed ["Creating phylogenetic tree plot..."] s) with
    | (Returned plot, s') => (Returned plot, s')
    | (Raised cause, s') =>
        (Raised (if isinstance cause Exception
                 then Exn RuntimeError ("Error creating plot: " +:+ str cause) (Some cause)
                 else cause), s')
    end.
Proof.
  unfold create_plot. unfold bind at 1. unfold print at 1.
  unfold try_except. unfold bind at 1. fold (plot_request tree metadata args color_map).
  destruct (bt_bokeh_plotTree E _ _) as [[plot|cause] s']; [done |].
  by destruct (isinstance cause Exception).
Qed.

(** ** Top level *)

Lemma bind_raises {A B : Type} (m : M A) (k : A → M B) (s : state) :
  (∀ a s1, ∃ e s2, k a s1 = (Raised e, s2)) →
  ∃ e s2, bind m k s = (Raised e, s2).
Proof.
  intros Hk. unfold bind. destruct (m s) as [[a|e] s1]; [apply Hk | by eexists _, _].
Qed.

(** The suite of [main] never comes to a normal end: its last call is
    [save_plot]. *)
Lemma main_suite_raises (E : Env) (args : Args) (s : state) :
  ∃ e s', main_suite E args s = (Raised e, s').
Proof.
  unfold main_suite.
  apply bind_raises. intros _ s1.
  apply bind_raises. intros [[tree metadata] hover_columns] s2.
  apply bind_raises. intros color_map s3.
  apply bind_raises. intros plot s4.
  rewrite save_plot_raises. by eexists _, _.
Qed.

Lemma exception_not_interrupt (e : exn) :
  isinstance e Exception = true → isinstance e KeyboardInterrupt = false.
Proof. destruct e as [[] text context]; vm_compute; congruence. Qed.


(** Once the command line is parsed, [main] is its [try] statement. *)
Lemma main_parsed (E : Env) (args : Args) (s0 s : state) :
  parse_arguments E s0 = (Parsed args, s) → main E s0 = main_try E args s.
Proof. intros Hparsed. unfold main. by rewrite Hparsed. Qed.








(** With this suite, the [try] of [main] never leaves with status 0. *)
Lemma main_try_never_exits_0 (E : Env) (args : Args) (s : state) :
  (main_try E args s).1 ≠ Exit 0.
Proof.
  destruct (main_suite_raises E args s) as (e & s' & Hsuite).
  unfold main_try, toplevel. rewrite Hsuite.
  by destruct (isinstance e KeyboardInterrupt), (isinstance e Exception).
Qed.

(** The run of the documentation, on a tree of three leaves and a table
    of three columns: every stage before the writer does its work, and
    the writer fails. *)
Example main_default_run :
  ∃ s',
    main Demo.env Demo.start = (Exit 1, s') ∧
    stdout s' =
      ["Loading tree from: data/tree.nwk";
       "Loading metadata from: data/meta.tsv";
       "Loaded tree with 3 tips";
       "Loaded metadata for 3 samples";
       "Creating phylogenetic tree plot...";
       "Saving plot to: <function output_file at 0x7f3a5c1d2e50>";
       "❌ Error: expected str, bytes or os.PathLike object, not function"] ∧
    fs s' = fs Demo.start.
Proof. eexists. split_and!; by vm_compute. Qed.

(** * Further properties of the program *)

(** ** The default colours and a short palette *)

(** X1. The indices go up to 10: with a palette of fewer than eleven
    colours [get_default_colors] raises [IndexError] ("list index out of
    range"), builds no mapping, not even a partial one, and leaves the
    state as it was. *)
Theorem get_default_colors_short_palette (E : Env) (s : state) :
  (length (px_colors_qualitative_Vivid E) < 11)%nat →
  get_default_colors E s = (Raised (Exn IndexError "list index out of range" None), s).
Proof.
  intros Hlen. unfold get_default_colors.
  destruct (px_colors_qualitative_Vivid E)
    as [|c0 [|c1 [|c2 [|c3 [|c4 [|c5 [|c6 [|c7 [|c8 [|c9 [|c10 rest]]]]]]]]]]];
    simpl in Hlen; try lia; reflexivity.
Qed.

Lemma get_default_colors_short_palette_witness :
  get_default_colors Demo.short_palette Demo.start
    = (Raised (Exn IndexError "list index out of range" None), Demo.start).
Proof.
  apply (get_default_colors_short_palette Demo.short_palette Demo.start).
  vm_compute. lia.
Defined.

(** ** The texts of the validator *)

(** X2. An error of [validate_inputs] names the file. A missing tree
    file is reported first, whatever the metadata path is: "Tree file
    not found: <tree>"; then a missing metadata file: "Metadata file not
    found: <metadata>". With both there, the text is "Cannot read tree
    file <tree>: <cause>" and the cause is kept as the context. The
    cause is the [OSError] of [open] or of the read, the
    [UnicodeDecodeError] of the read, or, for a file whose text is empty
    once trimmed, the function's own [ValueError] "Tree file is empty:
    <tree>", caught by its own handler. The state is as before the
    call. *)
Theorem validate_inputs_error_text (E : Env) (tree_file metadata_file : string)
    (s s' : state) (e : exn) :
  validate_inputs E tree_file metadata_file s = (Raised e, s') →
  s' = s ∧
  (fs s !! tree_file = None →
   e = Exn FileNotFoundError ("Tree file not found: " +:+ tree_file) None) ∧
  (is_Some (fs s !! tree_file) → fs s !! metadata_file = None →
   e = Exn FileNotFoundError ("Metadata file not found: " +:+ metadata_file) None) ∧
  (is_Some (fs s !! tree_file) → is_Some (fs s !! metadata_file) →
   ∃ cause,
     e = Exn ValueError ("Cannot read tree file " +:+ tree_file +:+ ": " +:+ str cause)
           (Some cause) ∧
     (isinstance cause OSError = true ∨
      exn_class cause = UnicodeDecodeError ∨
      cause = Exn ValueError ("Tree file is empty: " +:+ tree_file) None) ∧
     (∀ bytes, fs s !! tree_file = Some (File true bytes) →
        match f_read E {| name := tree_file; data := bytes |} with
        | Decoded content =>
            Text.strip content = [] ∧
            cause = Exn ValueError ("Tree file is empty: " +:+ tree_file) None
        | Undecodable message => cause = Exn UnicodeDecodeError message None
        | Unreadable message => cause = Exn OSError message None
        end)) ∧
  (Text.contains tree_file (str e) ∨ Text.contains metadata_file (str e)).
Proof.
  rewrite validate_inputs_cases.
  destruct (fs s !! tree_file) as [entry|] eqn:Htree.
  - destruct (fs s !! metadata_file) as [n|] eqn:Hmetadata.
    + destruct (unreadable_tree E tree_file entry) as [cause|] eqn:Hcause; [|done].
      intros [= <- <-]. split_and!; [done | done | by intros _ [=] | |].
      * intros _ _. exists cause. split_and!; [done | by eapply unreadable_tree_cause |].
        intros bytes [= ->]. unfold unreadable_tree in Hcause.
        destruct (f_read E _) as [content|message|message].
        -- case_bool_decide; [by injection Hcause as <- | done].
        -- by injection Hcause as <-.
        -- by injection Hcause as <-.
      * left. exists "Cannot read tree file "; eexists; reflexivity.
    + intros [= <- <-]. split_and!; [done | done | done | by intros _ [? [=]] |].
      right. exists "Metadata file not found: ", EmptyString. cbn [str].
      by rewrite append_empty_r.
  - intros [= <- <-]. split_and!; [done | done | by intros [? [=]] | by intros [? [=]] |].
    left. exists "Tree file not found: ", EmptyString. cbn [str].
    by rewrite append_empty_r.
Qed.

Lemma validate_inputs_error_text_witness :
  let cause :=
    Exn UnicodeDecodeError
      "'utf-8' codec can't decode byte 0xe9 in position 4: invalid continuation byte" None in
  let e :=
    Exn ValueError ("Cannot read tree file data/latin1.nwk: " +:+ str cause) (Some cause) in
  validate_inputs Demo.env "data/latin1.nwk" "data/meta.tsv" Demo.start
    = (Raised e, Demo.start) ∧
  (∃ cause',
     e = Exn ValueError ("Cannot read tree file data/latin1.nwk: " +:+ str cause')
           (Some cause') ∧
     cause' = cause) ∧
  (Text.contains "data/latin1.nwk" (str e) ∨ Text.contains "data/meta.tsv" (str e)).
Proof.
  intros cause e.
  assert (Hrun : validate_inputs Demo.env "data/latin1.nwk" "data/meta.tsv" Demo.start
                 = (Raised e, Demo.start)) by (vm_compute; reflexivity).
  destruct (validate_inputs_error_text Demo.env "data/latin1.nwk" "data/meta.tsv" Demo.start
              Demo.start e Hrun) as (_ & _ & _ & Hboth & Hnamed).
  split_and!; [exact Hrun | | exact Hnamed].
  destruct Hboth as (cause' & Hcause & _ & Hread).
  - vm_compute. eexists. reflexivity.
  - vm_compute. eexists. reflexivity.
  - exists cause'. split; [exact Hcause |].
    specialize (Hread ("(Caf" +:+ String "233"%char ":0.1,B:0.2);")).
    vm_compute in Hread. apply Hread. reflexivity.
Defined.

(** ** The metadata block and the store *)

Lemma passed_over_tables_narrow (parse : string → outcome DataFrame) (seps : list string) :
  Forall (λ t, (length (columns t) ≤ 1)%nat) (passed_over_tables parse seps).
Proof.
  induction seps as [|sep seps IH]; simpl; [constructor |].
  destruct (parse sep) as [df|e]; [|exact IH].
  case_bool_decide; [constructor |]. constructor; [lia | exact IH].
Qed.

Lemma passed_over_tables_length (parse : string → outcome DataFrame) (seps : list string)
    (df : DataFrame) :
  first_multi_column parse seps = Some df →
  (length (passed_over_tables parse seps) < length seps)%nat.
Proof.
  induction seps as [|sep seps IH]; simpl; [done |].
  destruct (parse sep) as [df0|e].
  - case_bool_decide; simpl; [lia |]. intros Hrest%IH. lia.
  - intros Hrest%IH. lia.
Qed.

Lemma first_multi_column_wide (parse : string → outcome DataFrame) (seps : list string)
    (df : DataFrame) :
  first_multi_column parse seps = Some df →
  (1 < length (columns df))%nat ∧ ∃ sep, sep ∈ seps ∧ parse sep = Returned df.
Proof.
  induction seps as [|sep seps IH]; simpl; [done |].
  destruct (parse sep) as [df0|e] eqn:Hparse.
  - case_bool_decide.
    + intros [= <-]. split; [done |]. exists sep. split; [left | done].
    + intros [Hwide (sep' & Hin & Hdf)]%IH. split; [done |].
      exists sep'. split; [by right | done].
  - intros [Hwide (sep' & Hin & Hdf)]%IH. split; [done |].
    exists sep'. split; [by right | done].
Qed.

Lemma first_multi_column_none_inv (parse : string → outcome DataFrame) (seps : list string) :
  first_multi_column parse seps = None →
  ∀ sep, sep ∈ seps → passed_over (parse sep).
Proof.
  induction seps as [|sep0 seps IH]; simpl; intros Hnone sep Hin.
  - by apply elem_of_nil in Hin.
  - destruct (parse sep0) as [df0|e] eqn:Hparse.
    + case_bool_decide; [done |].
      apply elem_of_cons in Hin as [-> | Hin]; [rewrite Hparse; simpl; lia | by apply IH].
    + apply elem_of_cons in Hin as [-> | Hin]; [by rewrite Hparse | by apply IH].
Qed.

(** X3. Whatever the parses of the candidates raise, be it a
    [KeyboardInterrupt], the bare [except:] of the loop takes it and the
    loop goes on. So the one error that the metadata block raises is the
    [ValueError] "Error loading metadata: Could not parse metadata file
    with any common separator", with the error of the [else] as its
    context, and it raises it only when every candidate failed or gave a
    single column. *)
Theorem load_metadata_raises_only (E : Env) (metadata_file : string) (s s' : state)
    (e : exn) :
  load_metadata E metadata_file s = (Raised e, s') →
  e = Exn ValueError
        "Error loading metadata: Could not parse metadata file with any common separator"
        (Some no_separator) ∧
  isinstance e KeyboardInterrupt = false ∧
  (∀ sep, sep ∈ separators → passed_over (pd_read_csv E (fs s) metadata_file sep)).
Proof.
  rewrite load_metadata_spec. cbn zeta.
  destruct (first_multi_column _ separators) as [df|] eqn:Hfirst; [done |].
  intros [= <- <-]. split_and!; [done | done |].
  by apply first_multi_column_none_inv.
Qed.

Lemma load_metadata_raises_only_witness :
  ∃ e s',
    load_metadata Demo.env "data/names.txt" Demo.start = (Raised e, s') ∧
    e = Exn ValueError
          "Error loading metadata: Could not parse metadata file with any common separator"
          (Some no_separator) ∧
    isinstance e KeyboardInterrupt = false.
Proof.
  eexists _, _.
  assert (Hrun : load_metadata Demo.env "data/names.txt" Demo.start
                 = (Raised (Exn ValueError
                      "Error loading metadata: Could not parse metadata file with any common separator"
                      (Some no_separator)),
                    with_frames [{| columns := ["sample"]; rows := [["A"]; ["B"]] |};
                                 {| columns := ["sample"]; rows := [["A"]; ["B"]] |};
                                 {| columns := ["sample"]; rows := [["A"]; ["B"]] |}]
                      Demo.start)) by (vm_compute; reflexivity).
  split; [exact Hrun |].
  destruct (load_metadata_raises_only _ _ _ _ _ Hrun) as (He & Hint & _). by split.
Defined.

(** X4. When the metadata block returns, the store has grown at its end
    only: first the single-column tables of the candidates that were
    passed over (at most two, and they stay there), then the accepted
    table, of more than one column, to which the reference returned
    points. The reference is new, every older reference still points to
    the same table, and the file system, the output and bokeh's state
    are as they were. *)
Theorem load_metadata_store (E : Env) (metadata_file : string) (s s' : state)
    (metadata : nat) :
  load_metadata E metadata_file s = (Returned metadata, s') →
  ∃ junk df,
    frames s' = frames s ++ junk ++ [df] ∧
    metadata = (length (frames s) + length junk)%nat ∧
    frames s' !! metadata = Some df ∧
    (1 < length (columns df))%nat ∧
    Forall (λ t, (length (columns t) ≤ 1)%nat) junk ∧
    (length junk ≤ 2)%nat ∧
    (∀ r old, frames s !! r = Some old → frames s' !! r = Some old) ∧
    fs s' = fs s ∧ stdout s' = stdout s ∧ curstate_file s' = curstate_file s.
Proof.
  rewrite load_metadata_spec. cbn zeta.
  destruct (first_multi_column _ separators) as [df|] eqn:Hfirst; [|done].
  intros [= <- <-].
  exists (passed_over_tables (pd_read_csv E (fs s) metadata_file) separators), df.
  split_and!; try done.
  - by rewrite length_app.
  - cbn [frames with_frames]. rewrite app_assoc. by apply list_lookup_middle.
  - by apply first_multi_column_wide in Hfirst as [Hwide _].
  - apply passed_over_tables_narrow.
  - apply passed_over_tables_length in Hfirst.
    change (length separators) with 3%nat in Hfirst. lia.
  - intros r old Hold. cbn [frames with_frames]. by apply lookup_app_l_Some.
Qed.

Lemma load_metadata_store_witness :
  ∃ metadata s' junk df,
    load_metadata Demo.env "data/meta.csv" Demo.start = (Returned metadata, s') ∧
    frames s' = frames Demo.start ++ junk ++ [df] ∧
    frames s' !! metadata = Some df ∧
    (1 < length (columns df))%nat ∧
    (length junk ≤ 2)%nat.
Proof.
  assert (Hrun : load_metadata Demo.env "data/meta.csv" Demo.start
                 = (Returned 1%nat,
                    with_frames
                      [{| columns := ["sample,taxon"];
                          rows := [["A,gambiae"]; ["B,coluzzii"]; ["C,arabiensis"]] |};
                       Demo.meta_csv] Demo.start)) by (vm_compute; reflexivity).
  destruct (load_metadata_store _ _ _ _ _ Hrun)
    as (junk & df & Hstore & _ & Hdf & Hwide & _ & Hjunk & _).
  eexists _, _, junk, df. split_and!; [exact Hrun | exact Hstore | exact Hdf | exact Hwide | exact Hjunk].
Defined.

(** ** The ways [load_data] ends *)

(** X5. [load_data] fails in three ways and no other. The parser of the
    tree failed: its error is wrapped in a [ValueError] when it is of the
    [Exception] family and goes up as it is otherwise, after the one
    line "Loading tree from". Or no candidate separator was accepted.
    Or the colour column is not in the accepted table: then the text of
    the error ends with the list of the columns, the four progress lines
    have been printed and no hover warning, whatever the hover columns
    are. In every case the file system is untouched. *)
Theorem load_data_failures (E : Env) (tree_file metadata_file color_column : string)
    (hover_columns : list string) (s s' : state) (e : exn) :
  load_data E tree_file metadata_file color_column hover_columns s = (Raised e, s') →
  fs s' = fs s ∧
  ((∃ cause,
      bt_loadNewick E (fs s) tree_file = Raised cause ∧
      e = (if isinstance cause Exception
           then Exn ValueError ("Error loading tree: " +:+ str cause) (Some cause)
           else cause) ∧
      stdout s' = stdout s ++ ["Loading tree from: " +:+ tree_file]) ∨
   (∃ tree,
      bt_loadNewick E (fs s) tree_file = Returned tree ∧
      (∀ sep, sep ∈ separators → passed_over (pd_read_csv E (fs s) metadata_file sep)) ∧
      e = Exn ValueError
            "Error loading metadata: Could not parse metadata file with any common separator"
            (Some no_separator) ∧
      stdout s' = stdout s ++ ["Loading tree from: " +:+ tree_file;
                               "Loading metadata from: " +:+ metadata_file]) ∨
   (∃ tree df,
      bt_loadNewick E (fs s) tree_file = Returned tree ∧
      first_multi_column (pd_read_csv E (fs s) metadata_file) separators = Some df ∧
      (color_column ∉ columns df) ∧
      e = Exn ValueError
            ("Color column '" +:+ color_column +:+
             "' not found in metadata. Available columns: " +:+
             repr_list E (columns df)) None ∧
      stdout s' =
        stdout s ++
        ["Loading tree from: " +:+ tree_file;
         "Loading metadata from: " +:+ metadata_file;
         "Loaded tree with " +:+ pretty (length (getExternal tree)) +:+ " tips";
         "Loaded metadata for " +:+ pretty (length (rows df)) +:+ " samples"])).
Proof.
  destruct (bt_loadNewick E (fs s) tree_file) as [tree|cause] eqn:Htree.
  - destruct (first_multi_column (pd_read_csv E (fs s) metadata_file) separators)
      as [df|] eqn:Hfirst.
    + rewrite (load_data_spec E _ _ _ _ s tree df Htree Hfirst). cbn zeta.
      case_bool_decide as Hcolor; [|by case_bool_decide].
      intros [= <- <-]. split; [done |]. right. right. by exists tree, df.
    + rewrite (load_data_metadata_failed E _ _ _ _ s tree Htree Hfirst).
      intros [= <- <-]. split; [done |]. right. left. exists tree.
      split_and!; [done | by apply first_multi_column_none_inv | done | done].
  - rewrite (load_data_tree_failed E _ _ _ _ s cause Htree).
    intros [= <- <-]. split; [done |]. left. by exists cause.
Qed.

Lemma load_data_failures_witness :
  ∃ e s',
    load_data Demo.interrupted "data/tree.nwk" "data/meta.tsv" "taxon" ["taxon"] Demo.start
      = (Raised e, s') ∧
    fs s' = fs Demo.start ∧
    e = Exn KeyboardInterrupt EmptyString None.
Proof.
  assert (Hrun : load_data Demo.interrupted "data/tree.nwk" "data/meta.tsv" "taxon" ["taxon"]
                   Demo.start
                 = (Raised (Exn KeyboardInterrupt EmptyString None),
                    printed ["Loading tree from: data/tree.nwk"] Demo.start))
    by (vm_compute; reflexivity).
  destruct (load_data_failures _ _ _ _ _ _ _ _ Hrun) as [Hfs _].
  eexists _, _. split_and!; [exact Hrun | exact Hfs | reflexivity].
Defined.

(** X6. [load_data] returns exactly when the tree parses, one of the
    candidate separators gives a table of more than one column, and the
    colour column is a column of the first such table. The hover columns
    have no part in it. *)
Theorem load_data_returns_iff (E : Env) (tree_file metadata_file color_column : string)
    (hover_columns : list string) (s : state) :
  (∃ result s',
     load_data E tree_file metadata_file color_column hover_columns s
       = (Returned result, s')) ↔
  (∃ tree df,
     bt_loadNewick E (fs s) tree_file = Returned tree ∧
     first_multi_column (pd_read_csv E (fs s) metadata_file) separators = Some df ∧
     color_column ∈ columns df).
Proof.
  split.
  - intros (result & s' & Hload).
    destruct (bt_loadNewick E (fs s) tree_file) as [tree|cause] eqn:Htree.
    + destruct (first_multi_column (pd_read_csv E (fs s) metadata_file) separators)
        as [df|] eqn:Hfirst.
      * exists tree, df. split_and!; [done | done |].
        rewrite (load_data_spec E _ _ _ _ s tree df Htree Hfirst) in Hload.
        cbn zeta in Hload. destruct (decide (color_column ∈ columns df)); [done |].
        by rewrite bool_decide_eq_true_2 in Hload.
      * by rewrite (load_data_metadata_failed E _ _ _ _ s tree Htree Hfirst) in Hload.
    + by rewrite (load_data_tree_failed E _ _ _ _ s cause Htree) in Hload.
  - intros (tree & df & Htree & Hfirst & Hcolor).
    rewrite (load_data_spec E _ _ _ _ s tree df Htree Hfirst). cbn zeta.
    rewrite bool_decide_eq_false_2 by (by intros Hout).
    case_bool_decide; by eexists _, _.
Qed.

Lemma load_data_returns_iff_witness :
  (∃ result s',
     load_data Demo.env "data/tree.nwk" "data/meta.tsv" "country" [] Demo.start
       = (Returned result, s')) ∧
  ¬ (∃ result s',
       load_data Demo.env "data/tree.nwk" "data/meta.csv" "country" [] Demo.start
         = (Returned result, s')).
Proof.
  split.
  - apply (proj2 (load_data_returns_iff Demo.env "data/tree.nwk" "data/meta.tsv" "country" []
                    Demo.start)).
    exists Demo.tree, Demo.meta_tsv. split_and!; [by vm_compute | by vm_compute |].
    apply (bool_decide_unpack _). vm_compute. exact I.
  - intros Hreturns.
    apply (proj1 (load_data_returns_iff Demo.env "data/tree.nwk" "data/meta.csv" "country" []
                    Demo.start)) in Hreturns as (tree & df & _ & Hfirst & Hcolor).
    vm_compute in Hfirst. injection Hfirst as <-.
    revert Hcolor. apply (bool_decide_unpack _). vm_compute. exact I.
Defined.

Lemma filter_kept_none_missing (cols hover_columns : list string) :
  filter (λ col, col ∉ cols) (filter (λ col, col ∈ cols) hover_columns) = [].
Proof.
  induction hover_columns as [|col l IH]; [done |].
  rewrite (filter_cons (λ col, col ∈ cols)).
  destruct (decide (col ∈ cols)) as [Hin|Hout]; [|exact IH].
  rewrite filter_cons. destruct (decide (col ∉ cols)) as [Hout|_]; [by destruct Hout | exact IH].
Qed.

(** X7. Reconciling is idempotent: asked again with the list that it
    returned, [load_data] returns that same list and prints no warning,
    only the four progress lines. *)
Theorem load_data_hover_columns_idempotent (E : Env)
    (tree_file metadata_file color_column : string) (hover_columns : list string)
    (s : state) (tree : Tree) (df : DataFrame) :
  bt_loadNewick E (fs s) tree_file = Returned tree →
  first_multi_column (pd_read_csv E (fs s) metadata_file) separators = Some df →
  color_column ∈ columns df →
  let kept := filter (λ col, col ∈ columns df) hover_columns in
  ∃ metadata s',
    load_data E tree_file metadata_file color_column kept s
      = (Returned (tree, metadata, kept), s') ∧
    stdout s' =
      stdout s ++
      ["Loading tree from: " +:+ tree_file;
       "Loading metadata from: " +:+ metadata_file;
       "Loaded tree with " +:+ pretty (length (getExternal tree)) +:+ " tips";
       "Loaded metadata for " +:+ pretty (length (rows df)) +:+ " samples"].
Proof.
  intros Htree Hfirst Hcolor kept.
  rewrite (load_data_spec E _ _ _ _ s tree df Htree Hfirst). cbn zeta.
  rewrite bool_decide_eq_false_2 by (by intros Hout).
  subst kept. rewrite filter_kept_none_missing.
  rewrite bool_decide_eq_false_2 by (by intros Hne). by eexists _, _.
Qed.

Lemma load_data_hover_columns_idempotent_witness :
  ∃ metadata s',
    load_data Demo.env "data/tree.nwk" "data/meta.csv" "taxon" ["taxon"] Demo.start
      = (Returned (Demo.tree, metadata, ["taxon"]), s') ∧
    stdout s' =
      ["Loading tree from: data/tree.nwk";
       "Loading metadata from: data/meta.csv";
       "Loaded tree with 3 tips";
       "Loaded metadata for 3 samples"].
Proof.
  apply (load_data_hover_columns_idempotent Demo.env "data/tree.nwk" "data/meta.csv" "taxon"
           ["taxon"; "country"] Demo.start Demo.tree Demo.meta_csv).
  - vm_compute. reflexivity.
  - vm_compute. reflexivity.
  - apply (bool_decide_unpack _). vm_compute. exact I.
Defined.

(** ** The plot assembler *)

(** X8. [create_plot] prints its line and calls the plotting
    collaborator once, with the hover columns of [args], the colour
    mapping and the reference of the table that it was given. Then the
    plot of the collaborator is returned as it is; an error of the
    [Exception] family is raised again as a [RuntimeError] "Error
    creating plot: <cause>" with the cause as its context; any other
    exception goes up as it is. The state is the one the collaborator
    left. *)
Theorem create_plot_outcome (E : Env) (tree : Tree) (metadata : nat) (args : Args)
    (color_map : pyobj) (s : state) :
  let request := plot_request tree metadata args color_map in
  let called := bt_bokeh_plotTree E request
                  (printed ["Creating phylogenetic tree plot..."] s) in
  kw_hover_data request = args_hover_columns args ∧
  kw_df_metadata request = metadata ∧
  kw_color_discrete_map request = color_map ∧
  create_plot E tree metadata args color_map s =
    match called with
    | (Returned plot, s') => (Returned plot, s')
    | (Raised cause, s') =>
        (Raised (if isinstance cause Exception
                 then Exn RuntimeError ("Error creating plot: " +:+ str cause) (Some cause)
                 else cause), s')
    end.
Proof.
  cbn zeta. split_and!; [done.. |]. apply create_plot_cases.
Qed.

(** ** [main], stage by stage *)

(** X9. When the validation fails, the [try] of [main] stops there: no
    collaborator is called, the one line of output is the error, and the
    status is 1. In any environment. *)
Theorem main_validation_failed (E : Env) (args : Args) (s s' : state) (e : exn) :
  validate_inputs E (args_tree args) (args_metadata args) s = (Raised e, s') →
  main_try E args s = (Exit 1, printed ["❌ Error: " +:+ str e] s).
Proof.
  intros Hvalid.
  destruct (validate_inputs_raises_exception _ _ _ _ _ _ Hvalid) as (Hexc & Hint & -> & _).
  unfold main_try, toplevel, main_suite. unfold bind at 1. by rewrite Hvalid, Hint, Hexc.
Qed.

Lemma main_validation_failed_witness :
  main_try Demo.env (Demo.run_args "data/locked.nwk" "data/meta.tsv" "taxon" ["taxon"] None)
    Demo.start
  = (Exit 1,
     printed ["❌ Error: Cannot read tree file data/locked.nwk: [Errno 13] Permission denied: 'data/locked.nwk'"]
       Demo.start).
Proof.
  apply (main_validation_failed Demo.env
           (Demo.run_args "data/locked.nwk" "data/meta.tsv" "taxon" ["taxon"] None)
           Demo.start Demo.start
           (Exn ValueError
              "Cannot read tree file data/locked.nwk: [Errno 13] Permission denied: 'data/locked.nwk'"
              (Some (Exn PermissionError "[Errno 13] Permission denied: 'data/locked.nwk'" None)))).
  vm_compute. reflexivity.
Defined.

(** X10. After a successful validation, loading and colour resolution,
    the [try] of [main] gives to the plotting collaborator the tree, the reference of
    the loaded table, the reconciled hover columns (not the ones of the
    command line) and the resolved colour mapping. What follows is
    decided by that call: a plot leads to the writer, whose [TypeError]
    is printed; an error of the [Exception] family is printed as "Error
    creating plot: ..."; an interrupt is printed as such. The status is
    1 in these three cases, and any other exception goes up to the
    interpreter. *)
Theorem main_after_loading (E : Env) (args : Args) (s s2 s3 : state)
    (tree : Tree) (metadata : nat) (hover_columns : list string) (color_map : pyobj) :
  validate_inputs E (args_tree args) (args_metadata args) s = (Returned tt, s) →
  load_data E (args_tree args) (args_metadata args) (args_color_column args)
    (args_hover_columns args) s = (Returned (tree, metadata, hover_columns), s2) →
  get_color_mapping E (set_hover_columns args hover_columns) s2 = (Returned color_map, s3) →
  let request :=
    plot_request tree metadata (set_hover_columns args hover_columns) color_map in
  kw_hover_data request = hover_columns ∧
  main_try E args s =
    match bt_bokeh_plotTree E request (printed ["Creating phylogenetic tree plot..."] s3) with
    | (Returned plot, s4) =>
        (Exit 1,
         printed ["Saving plot to: <function output_file at " +:+
                  function_address E "output_file" +:+ ">";
                  "❌ Error: expected str, bytes or os.PathLike object, not function"] s4)
    | (Raised cause, s4) =>
        if isinstance cause KeyboardInterrupt then
          (Exit 1, printed [newline +:+ "❌ Interrupted by user"] s4)
        else if isinstance cause Exception then
          (Exit 1, printed ["❌ Error: Error creating plot: " +:+ str cause] s4)
        else (Uncaught cause, s4)
    end.
Proof.
  intros Hvalid Hload Hcolors request. split; [done |].
  unfold main_try, toplevel.
  rewrite (main_suite_loaded E args s s2 tree metadata hover_columns Hvalid Hload).
  cbn zeta. unfold bind at 1. rewrite Hcolors. unfold bind at 1.
  rewrite create_plot_cases.
  fold request.
  destruct (bt_bokeh_plotTree E request _) as [[plot|cause] s4].
  - rewrite save_plot_raises.
    set (err := Exn TypeError _ None).
    assert (isinstance err KeyboardInterrupt = false) as -> by reflexivity.
    assert (isinstance err Exception = true) as -> by reflexivity.
    by rewrite printed_printed.
  - destruct (isinstance cause Exception) eqn:Hexc.
    + by rewrite (exception_not_interrupt cause Hexc).
    + by rewrite Hexc.
Qed.

Lemma main_after_loading_witness :
  ∃ s',
    main_try Demo.failing_plot
      (Demo.run_args "data/tree.nwk" "data/meta.csv" "taxon" ["taxon"; "country"] None)
      Demo.start = (Exit 1, s') ∧
    stdout s' =
      ["Loading tree from: data/tree.nwk";
       "Loading metadata from: data/meta.csv";
       "Loaded tree with 3 tips";
       "Loaded metadata for 3 samples";
       "Warning: Hover columns not found in metadata: ['country']";
       "Creating phylogenetic tree plot...";
       "❌ Error: Error creating plot: Unknown marker type"].
Proof.
  edestruct (main_after_loading Demo.failing_plot
               (Demo.run_args "data/tree.nwk" "data/meta.csv" "taxon" ["taxon"; "country"] None)
               Demo.start) as [_ Hmain].
  - vm_compute. reflexivity.
  - vm_compute. reflexivity.
  - vm_compute. reflexivity.
  - rewrite Hmain. eexists. split; vm_compute; reflexivity.
Defined.

(** X11. The [try] of [main] never ends normally: whatever the
    environment and the arguments, its suite raises, at the latest in
    [save_plot]. So once the command line is parsed, [main] ends in one
    of its two handlers with status 1, or with an exception that is
    neither of the [Exception] family nor a [KeyboardInterrupt] on its
    way to the interpreter, which alone decides the status then. A
    status of [main]'s own that is not 1 is the status with which
    argparse left, before the [try]. *)
Theorem main_status (E : Env) (s0 : state) :
  (∀ args s, ∃ e s', main_suite E args s = (Raised e, s')) ∧
  (∀ args s,
     parse_arguments E s0 = (Parsed args, s) →
     (∃ s', main E s0 = (Exit 1, s')) ∨
     (∃ e s', main E s0 = (Uncaught e, s') ∧
              isinstance e Exception = false ∧ isinstance e KeyboardInterrupt = false)) ∧
  (∀ status s',
     main E s0 = (Exit status, s') → status ≠ 1 →
     parse_arguments E s0 = (Exited status, s')).
Proof.
  assert (Htry : ∀ args s,
            (∃ s', main_try E args s = (Exit 1, s')) ∨
            (∃ e s', main_try E args s = (Uncaught e, s') ∧
                     isinstance e Exception = false ∧ isinstance e KeyboardInterrupt = false)).
  { intros args s. destruct (main_suite_raises E args s) as (e & s' & Hsuite).
    unfold main_try, toplevel. rewrite Hsuite.
    destruct (isinstance e KeyboardInterrupt) eqn:Hint; [left; by eexists |].
    destruct (isinstance e Exception) eqn:Hexc; [left; by eexists |].
    right. by eexists _, _. }
  split_and!.
  - intros args s. apply main_suite_raises.
  - intros args s Hparsed. rewrite (main_parsed E args s0 s Hparsed). apply Htry.
  - intros status s'. unfold main.
    destruct (parse_arguments E s0) as [[args|status0] s] eqn:Hparsed.
    + destruct (Htry args s) as [[s1 ->] | (e & s1 & -> & _)]; [|done].
      intros [= <- <-]. done.
    + by intros [= <- <-].
Qed.

Lemma main_status_witness :
  (∃ s', main Demo.env Demo.start = (Exit 1, s')) ∧
  parse_arguments Demo.no_tree_option Demo.start = (Exited 2, Demo.start).
Proof.
  destruct (main_status Demo.env Demo.start) as (_ & Hparsed & _).
  destruct (main_status Demo.no_tree_option Demo.start) as (_ & _ & Hstatus).
  split.
  - destruct (Hparsed Demo.args Demo.start) as [Hexit | (e & s' & Huncaught & _)].
    + reflexivity.
    + exact Hexit.
    + vm_compute in Huncaught. discriminate Huncaught.
  - apply Hstatus; [vm_compute; reflexivity | lia].
Defined.

(** ** The colour file and an interrupt *)

(** X12. The fallback of [load_custom_colors] is for errors of the
    [Exception] family only. When the decoder raises something else, a
    [KeyboardInterrupt] for one, it goes up as it is: no warning is
    printed and the default mapping is not used. *)
Theorem load_custom_colors_not_caught (E : Env) (color_file content : string) (s : state)
    (cause : exn) :
  fs s !! color_file = Some (File true content) →
  json_load E {| name := color_file; data := content |} = Raised cause →
  isinstance cause Exception = false →
  load_custom_colors E color_file s = (Raised cause, s).
Proof.
  intros Hfile Hjson Hexc.
  unfold load_custom_colors, try_except, bind, open, call.
  by rewrite Hfile, Hjson, Hexc.
Qed.

Lemma load_custom_colors_not_caught_witness :
  load_custom_colors Demo.interrupted_json "colors.json" Demo.start
    = (Raised (Exn KeyboardInterrupt EmptyString None), Demo.start).
Proof.
  apply (load_custom_colors_not_caught Demo.interrupted_json "colors.json" Demo.colors_json).
  - vm_compute. reflexivity.
  - vm_compute. reflexivity.
  - vm_compute. reflexivity.
Defined.

(** ** What is never written *)

Lemma reads_only_ret {A : Type} (a : A) : reads_only (ret a).
Proof. by intros s. Qed.

Lemma reads_only_raise {A : Type} (cls : exc_class) (text : string) :
  reads_only (@raise A cls text).
Proof. by intros s. Qed.

Lemma reads_only_print (line : string) : reads_only (print line).
Proof. by intros s. Qed.

Lemma reads_only_reader {A : Type} (reader : state → outcome A) :
  reads_only (λ s, call (reader s) s).
Proof. by intros s. Qed.

Lemma reads_only_bind {A B : Type} (m : M A) (k : A → M B) :
  reads_only m → (∀ a, reads_only (k a)) → reads_only (bind m k).
Proof.
  intros Hm Hk s. unfold bind. specialize (Hm s).
  destruct (m s) as [[a|e] s1]; simpl in Hm; [|done].
  destruct (Hk a s1) as [Hfs Hfile]. by rewrite Hfs, Hfile.
Qed.

Lemma reads_only_try_except {A : Type} (body : M A) (catches : exn → bool)
    (handler : exn → M A) :
  reads_only body → (∀ e, reads_only (handler e)) →
  reads_only (try_except body catches handler).
Proof.
  intros Hbody Hhandler s. unfold try_except. specialize (Hbody s).
  destruct (body s) as [[a|e] s1]; simpl in Hbody; [done |].
  destruct (catches e); [|done]. specialize (Hhandler e s1).
  destruct (handler e s1) as [[a|e'] s2]; simpl in *; by destruct Hhandler as [-> ->].
Qed.

Lemma reads_only_open (E : Env) (path : string) : reads_only (open E path).
Proof.
  intros s. unfold open.
  destruct (fs s !! path) as [[|[] content]|]; [done.. |].
  by destruct (through_file (fs s) path).
Qed.

Lemma reads_only_read (E : Env) (f : TextIO) : reads_only (read E f).
Proof. intros s. unfold read. by destruct (f_read E f). Qed.

Lemma reads_only_getitem (l : list string) (i : nat) : reads_only (getitem l i).
Proof. unfold getitem. destruct (l !! i); [apply reads_only_ret | apply reads_only_raise]. Qed.

Ltac reads_only_step :=
  first
    [ apply reads_only_ret | apply reads_only_raise | apply reads_only_print
    | apply reads_only_open | apply reads_only_read | apply reads_only_getitem
    | apply reads_only_reader
    | apply reads_only_bind; [|intros ?]
    | apply reads_only_try_except; [|intros ?]
    | by intros ? ].

Lemma reads_only_validate_inputs (E : Env) (tree_file metadata_file : string) :
  reads_only (validate_inputs E tree_file metadata_file).
Proof.
  unfold validate_inputs.
  apply reads_only_bind; [by intros ? | intros tree_exists].
  destruct (negb tree_exists); [reads_only_step |].
  apply reads_only_bind; [by intros ? | intros metadata_exists].
  destruct (negb metadata_exists); [reads_only_step |].
  apply reads_only_try_except; [|intros e; reads_only_step].
  apply reads_only_bind; [reads_only_step | intros f].
  apply reads_only_bind; [reads_only_step | intros content].
  cbn zeta. case_bool_decide; reads_only_step.
Qed.

Lemma reads_only_read_metadata (E : Env) (metadata_file : string) (seps : list string) :
  reads_only (read_metadata E metadata_file seps).
Proof.
  induction seps as [|sep seps IH]; simpl; [reads_only_step |].
  apply reads_only_bind.
  - apply reads_only_try_except; [|intros e; reads_only_step].
    apply reads_only_bind; [apply reads_only_reader | intros df].
    apply reads_only_bind; [by intros ? | intros metadata].
    apply reads_only_bind; [by intros ? | intros cols].
    case_bool_decide; reads_only_step.
  - intros [metadata|]; [reads_only_step | exact IH].
Qed.

Lemma reads_only_load_data (E : Env) (tree_file metadata_file color_column : string)
    (hover_columns : list string) :
  reads_only (load_data E tree_file metadata_file color_column hover_columns).
Proof.
  unfold load_data.
  apply reads_only_bind; [reads_only_step | intros _].
  apply reads_only_bind.
  { apply reads_only_try_except; [apply reads_only_reader | intros e; reads_only_step]. }
  intros tree.
  apply reads_only_bind; [reads_only_step | intros _].
  apply reads_only_bind.
  { unfold load_metadata.
    apply reads_only_try_except; [apply reads_only_read_metadata | intros e; reads_only_step]. }
  intros metadata.
  apply reads_only_bind; [reads_only_step | intros _].
  apply reads_only_bind; [by intros ? | intros samples].
  apply reads_only_bind; [reads_only_step | intros _].
  apply reads_only_bind; [by intros ? | intros metadata_columns].
  case_bool_decide; [reads_only_step |].
  cbn zeta. case_bool_decide; repeat reads_only_step.
Qed.

Lemma reads_only_get_default_colors (E : Env) : reads_only (get_default_colors E).
Proof. unfold get_default_colors. cbn zeta. repeat reads_only_step. Qed.

Lemma reads_only_load_custom_colors (E : Env) (color_file : string) :
  reads_only (load_custom_colors E color_file).
Proof.
  unfold load_custom_colors.
  apply reads_only_try_except.
  - apply reads_only_bind; [reads_only_step | by intros f s].
  - intros e. repeat reads_only_step.
Qed.

Lemma reads_only_save_plot (E : Env) (plot : Plot) (output_file : pyval) (show_plot : bool) :
  reads_only (save_plot E plot output_file show_plot).
Proof. intros s. by rewrite save_plot_raises. Qed.

(** X13. The stages that this script owns write nothing: however they
    end, [validate_inputs], [load_data], [get_default_colors],
    [load_custom_colors] and also [save_plot] leave every entry of the
    file system and bokeh's output file as they were. *)
Theorem stages_read_only (E : Env) :
  (∀ tree_file metadata_file, reads_only (validate_inputs E tree_file metadata_file)) ∧
  (∀ tree_file metadata_file color_column hover_columns,
     reads_only (load_data E tree_file metadata_file color_column hover_columns)) ∧
  reads_only (get_default_colors E) ∧
  (∀ color_file, reads_only (load_custom_colors E color_file)) ∧
  (∀ plot output_file show_plot, reads_only (save_plot E plot output_file show_plot)).
Proof.
  split_and!.
  - apply reads_only_validate_inputs.
  - apply reads_only_load_data.
  - apply reads_only_get_default_colors.
  - apply reads_only_load_custom_colors.
  - apply reads_only_save_plot.
Qed.

(** A suite that writes nothing, under the top-level [try]. *)
Lemma reads_only_main_suite (E : Env) (args : Args) :
  (∀ request, reads_only (bt_bokeh_plotTree E request)) →
  reads_only (main_suite E args).
Proof.
  intros Hplot. unfold main_suite.
  apply reads_only_bind; [apply reads_only_validate_inputs | intros _].
  apply reads_only_bind; [apply reads_only_load_data | intros [[tree metadata] hover]].
  apply reads_only_bind.
  { unfold get_color_mapping.
    destruct (truthy _);
      [apply reads_only_load_custom_colors | apply reads_only_get_default_colors]. }
  intros color_map.
  apply reads_only_bind; [|intros plot; apply reads_only_save_plot].
  unfold create_plot.
  apply reads_only_bind; [reads_only_step | intros _].
  apply reads_only_try_except; [|intros e; reads_only_step].
  apply reads_only_bind; [apply Hplot | intros p; reads_only_step].
Qed.

Lemma main_try_writes_nothing (E : Env) (args : Args) (s : state) :
  (∀ request, reads_only (bt_bokeh_plotTree E request)) →
  fs (main_try E args s).2 = fs s ∧ curstate_file (main_try E args s).2 = curstate_file s.
Proof.
  intros Hplot. pose proof (reads_only_main_suite E args Hplot s) as Hsuite.
  unfold main_try, toplevel.
  destruct (main_suite E args s) as [[[]|e] s']; simpl in Hsuite; [done |].
  by destruct (isinstance e KeyboardInterrupt), (isinstance e Exception).
Qed.

(** X14. If the plotting collaborator writes no file, a whole run of the
    [try] of [main] writes none: the file system after the run is the
    file system before it, so no output file has been made at the path
    of [--output], and bokeh's output file has not been set. The same
    holds of [main] as a whole when argparse has written no file. *)
Theorem main_writes_nothing (E : Env) (args : Args) (s : state) :
  (∀ request, reads_only (bt_bokeh_plotTree E request)) →
  fs (main_try E args s).2 = fs s ∧
  fs (main_try E args s).2 !! args_output args = fs s !! args_output args ∧
  curstate_file (main_try E args s).2 = curstate_file s ∧
  (fs (parse_arguments E s).2 = fs s →
   curstate_file (parse_arguments E s).2 = curstate_file s →
   fs (main E s).2 = fs s ∧ curstate_file (main E s).2 = curstate_file s).
Proof.
  intros Hplot.
  destruct (main_try_writes_nothing E args s Hplot) as [Hfs Hfile].
  split_and!; [done | by rewrite Hfs | done |].
  unfold main. destruct (parse_arguments E s) as [[parsed_args|status] s1]; [|done].
  cbn [snd]. intros <- <-. by apply main_try_writes_nothing.
Qed.

Lemma main_writes_nothing_witness :
  fs (main_try Demo.env Demo.args Demo.start).2 = fs Demo.start ∧
  fs (main_try Demo.env Demo.args Demo.start).2 !! "out/figs/tree.html" = None ∧
  curstate_file (main_try Demo.env Demo.args Demo.start).2 = None ∧
  fs (main Demo.env Demo.start).2 = fs Demo.start.
Proof.
  destruct (main_writes_nothing Demo.env Demo.args Demo.start)
    as (Hfs & Hout & Hfile & Hmain).
  - intros request s. vm_compute. split; reflexivity.
  - split_and!; [exact Hfs | | exact Hfile | apply Hmain; reflexivity].
    etrans; [exact Hout | vm_compute; reflexivity].
Defined.

(** ** A colour file that cannot be opened *)

(** X15. A colour file that cannot be opened does not stop the run.
    After a successful validation and loading, and with a palette of at
    least eleven colours, [main] prints the two lines of warning and
    goes on to the plotting collaborator with the default mapping, the
    loaded table and the reconciled hover columns. *)
Theorem main_custom_colors_unreadable (E : Env) (args : Args) (s s2 : state)
    (tree : Tree) (metadata : nat) (hover_columns : list string) (c : ascii)
    (path : string) :
  (11 ≤ length (px_colors_qualitative_Vivid E))%nat →
  args_custom_colors args = Some (String c path) →
  (∀ content, fs s !! String c path ≠ Some (File true content)) →
  validate_inputs E (args_tree args) (args_metadata args) s = (Returned tt, s) →
  load_data E (args_tree args) (args_metadata args) (args_color_column args)
    (args_hover_columns args) s = (Returned (tree, metadata, hover_columns), s2) →
  ∃ defaults cause,
    (∀ s0, get_default_colors E s0 = (Returned defaults, s0)) ∧
    isinstance cause OSError = true ∧
    main_suite E args s =
      (plot <- create_plot E tree metadata (set_hover_columns args hover_columns) defaults ;;
       save_plot E plot (VStr (args_output args)) (args_show_plot args))
        (printed ["Warning: Could not load custom colors from " +:+ String c path +:+
                  ": " +:+ str cause;
                  "Using default colors instead."] s2).
Proof.
  intros Hlen Hcustom Hclosed Hvalid Hload.
  destruct (get_default_colors_pure E Hlen) as [defaults Hdefaults].
  assert (Hfs : fs s2 = fs s).
  { pose proof (reads_only_load_data E (args_tree args) (args_metadata args)
                  (args_color_column args) (args_hover_columns args) s) as [Hfs _].
    by rewrite Hload in Hfs. }
  assert (Hfallback : ∃ cause,
            isinstance cause OSError = true ∧
            (f <- open E (String c path) ;; call (json_load E f)) s2 = (Raised cause, s2)).
  { destruct (open_closed E (String c path) s2) as (cause & Hos & Hopen).
    - intros content. rewrite Hfs. apply Hclosed.
    - exists cause. split; [done |]. unfold bind. by rewrite Hopen. }
  destruct Hfallback as (cause & Hos & Hbody).
  assert (Hexc : isinstance cause Exception = true) by (by apply oserror_exception).
  exists defaults, cause. split_and!; [done | done |].
  rewrite (main_suite_loaded E args s s2 tree metadata hover_columns Hvalid Hload).
  cbn zeta. unfold bind at 1. unfold get_color_mapping.
  change (args_custom_colors (set_hover_columns args hover_columns))
    with (args_custom_colors args).
  rewrite Hcustom. cbn [truthy default]. unfold id.
  by rewrite (load_custom_colors_fallback E (String c path) s2 cause defaults Hdefaults Hbody Hexc).
Qed.

Lemma main_custom_colors_unreadable_witness :
  ∃ s',
    main_try Demo.env
      (Demo.run_args "data/tree.nwk" "data/meta.tsv" "taxon" ["taxon"] (Some "missing.json"))
      Demo.start = (Exit 1, s') ∧
    stdout s' =
      ["Loading tree from: data/tree.nwk";
       "Loading metadata from: data/meta.tsv";
       "Loaded tree with 3 tips";
       "Loaded metadata for 3 samples";
       "Warning: Could not load custom colors from missing.json: [Errno 2] No such file or directory: 'missing.json'";
       "Using default colors instead.";
       "Creating phylogenetic tree plot...";
       "Saving plot to: <function output_file at 0x7f3a5c1d2e50>";
       "❌ Error: expected str, bytes or os.PathLike object, not function"].
Proof.
  edestruct (main_custom_colors_unreadable Demo.env
               (Demo.run_args "data/tree.nwk" "data/meta.tsv" "taxon" ["taxon"]
                  (Some "missing.json"))
               Demo.start) as (defaults & cause & _ & _ & Hsuite).
  - simpl. lia.
  - reflexivity.
  - intros content. vm_compute. discriminate.
  - vm_compute. reflexivity.
  - vm_compute. reflexivity.
  - eexists. split; vm_compute; reflexivity.
Defined.
